(** * Lambdust benchmark engine: parameter expansion, sandbox, statistics,
      regression detection

    A shallow embedding of [run_comprehensive_benchmarks.py]
    ([BenchmarkRunner]) and of the statistics block of
    [scripts/process_results.py] ([BenchmarkProcessor]), with the
    properties the specification states about them.

    Modelling conventions
    - A Python [float] is a primitive binary64 float ([PrimFloat.float]);
      the builtin [sum] is the left-to-right float sum (CPython before
      3.12).  Numbers read from JSON that take part in arithmetic are
      floats.
    - [x ** y] on floats follows CPython's [float_pow]: its special cases
      are written out, the call of the C library's [pow] that remains is a
      parameter ([libm_pow]), and an infinite result of that call is the
      [OverflowError] CPython raises.  The builtin [sorted] is a parameter
      too; what is asked of it is stated where it is needed.
    - A Python [dict] is an insertion-ordered association list ([odict]);
      [to_gmap] gives its content as a [gmap], which forgets the order as
      Python's [==] on dicts does.
    - A Python exception is a value of [exception]; code that may raise
      returns [exn A]; code that also touches the host (temporary files,
      processes, the clock) runs in the state monad [sandbox]. *)

From Stdlib Require Import Floats ZArith.
From stdpp Require Import gmap strings list pretty.


(** ** Python values *)

Inductive exception :=
  | ZeroDivisionError
  | IndexError
  | ValueError
  | FileNotFoundError (path : string)
  | UnboundLocalError (var : string)
  | OverflowError
  | TypeError
  | OSError (message : string).

Inductive exn (A : Type) :=
  | Ok (a : A)
  | Raise (e : exception).
Arguments Ok {A} a.
Arguments Raise {A} e.

#[global] Instance exn_ret : MRet exn := λ A a, Ok a.
#[global] Instance exn_bind : MBind exn := λ A B k m,
  match m with
  | Ok a => k a
  | Raise e => Raise e
  end.

(** A [for] loop over [xs] whose body [f] updates the accumulator and may
    raise; the first exception ends the loop. *)
Fixpoint for_each {A B} (f : A → B → exn A) (xs : list B) (acc : A) : exn A :=
  match xs with
  | [] => Ok acc
  | x :: rest => acc ← f acc x; for_each f rest acc
  end.

(** Values a JSON document carries for a test parameter. *)
Inductive json_value :=
  | JInt (z : Z)
  | JFloat (f : float)
  | JString (s : string)
  | JBool (b : bool).

(** ** Insertion-ordered dictionaries *)

Module odict.
Section defs.
Context {V : Type}.

(** [d[k] = v]: an existing key keeps its position, a new key goes last. *)
Fixpoint set (k : string) (v : V) (d : list (string * V)) : list (string * V) :=
  match d with
  | [] => [(k, v)]
  | (k', v') :: rest =>
      if String.eqb k k' then (k, v) :: rest else (k', v') :: set k v rest
  end.

(** [d.get(k)] *)
Fixpoint get (k : string) (d : list (string * V)) : option V :=
  match d with
  | [] => None
  | (k', v') :: rest => if String.eqb k k' then Some v' else get k rest
  end.

(** [k in d] *)
Definition mem (k : string) (d : list (string * V)) : bool :=
  match get k d with Some _ => true | None => false end.

(** [list(d.keys())] *)
Definition keys (d : list (string * V)) : list string := d.*1.

(** The content of the dictionary, forgetting the insertion order. *)
Definition to_gmap (d : list (string * V)) : gmap string V := list_to_map d.
End defs.
End odict.

Abbreviation odict V := (list (string * V)).
Abbreviation combo := (odict json_value).

(** ** Parameter Expander *)

(** One entry of [param['values']]: [{'type': ..., 'value': ...}]. *)
Record value_def := ValueDef { vd_type : string; vd_value : json_value }.

(** One entry of [test['parameters']]: [{'name': ..., 'values': [...]}]. *)
Record parameter := Param { p_name : string; p_values : list value_def }.

(** The [if]/[elif] chain on [value_def['type']]; [None] is the final
    [else: continue]. *)
Definition extract_value (value_def : value_def) : option json_value :=
  if String.eqb (vd_type value_def) "Integer" then Some (vd_value value_def)
  else if String.eqb (vd_type value_def) "Float" then Some (vd_value value_def)
  else if String.eqb (vd_type value_def) "String" then Some (vd_value value_def)
  else if String.eqb (vd_type value_def) "Boolean" then Some (vd_value value_def)
  else None.

(** Body of [for param in parameters]: the new list is filled by the loop
    over the values (outer) and over the existing combinations (inner). *)
Definition expand_parameter (combinations : list combo) (param : parameter)
  : list combo :=
  value_def ← p_values param;
  existing_combo ← combinations;
  match extract_value value_def with
  | Some value => [odict.set (p_name param) value existing_combo]
  | None => []
  end.

Definition generate_parameter_combinations (parameters : list parameter)
  : list combo :=
  match parameters with
  | [] => [[]]
  | _ => fold_left expand_parameter parameters [[]]
  end.

(** ** Python arithmetic on floats *)

Definition float_of_nat (n : nat) : float :=
  PrimFloat.of_uint63 (Uint63.of_Z (Z.of_nat n)).

(** [x / y]: true division raises on a zero divisor (of either sign). *)
Definition truediv (x y : float) : exn float :=
  if PrimFloat.eqb y 0 then Raise ZeroDivisionError else Ok (PrimFloat.div x y).

(** [x / n] for an [int] [n]: a [len(...)] or a sum of such lengths minus a
    constant, never negative where it is used. *)
Definition truediv_int (x : float) (n : Z) : exn float :=
  if Z.eqb n 0 then Raise ZeroDivisionError
  else Ok (PrimFloat.div x (PrimFloat.of_uint63 (Uint63.of_Z n))).

(** [sum(xs)] *)
Definition py_sum (xs : list float) : float := fold_left PrimFloat.add xs 0%float.

(** [xs[i]], negative indices counting from the end. *)
Definition py_index (xs : list float) (i : Z) : exn float :=
  let j := if Z.ltb i 0 then (i + Z.of_nat (length xs))%Z else i in
  if Z.ltb j 0 then Raise IndexError
  else match xs !! Z.to_nat j with
       | Some x => Ok x
       | None => Raise IndexError
       end.

(** ** The interpreter *)

(** What the program takes from the interpreter it runs on: the C library's
    [pow], which CPython calls for a finite positive base other than [1]
    under a finite non-zero exponent, and the builtin [sorted] on lists of
    floats. *)
Record python := Python {
  libm_pow : float → float → float;
  sorted : list float → list float;
}.

(** What [x ** y] gives for a float [x]: a float, or a complex number (a
    negative [x] under a fractional [y]), whose parts are not modelled. *)
Inductive power :=
  | Real (f : float)
  | Complex.

(** [iv ** 2] through the cases of [float_pow]: a NaN stays; an infinity
    gives [inf]; a zero gives [0.0]; a negative base is negated, the
    exponent being an even integer; the base [1.0] gives [1.0]; what
    remains goes to [pow], and an infinite result of [pow] is reported as
    [OverflowError]. *)
Definition float_pow_2 (py : python) (iv : float) : exn float :=
  if PrimFloat.is_nan iv then Ok iv
  else if PrimFloat.is_infinity iv then Ok (PrimFloat.abs iv)
  else if PrimFloat.eqb iv 0 then Ok 0%float
  else
    let iv := if PrimFloat.ltb iv 0 then PrimFloat.opp iv else iv in
    if PrimFloat.eqb iv 1 then Ok 1%float
    else
      let ix := libm_pow py iv 2 in
      if PrimFloat.is_infinity ix then Raise OverflowError else Ok ix.

(** [iv ** 0.5] through the same cases; here a negative base makes the
    result complex. *)
Definition float_pow_half (py : python) (iv : float) : exn power :=
  if PrimFloat.is_nan iv then Ok (Real iv)
  else if PrimFloat.is_infinity iv then Ok (Real (PrimFloat.abs iv))
  else if PrimFloat.eqb iv 0 then Ok (Real 0)
  else if PrimFloat.ltb iv 0 then Ok Complex
  else if PrimFloat.eqb iv 1 then Ok (Real 1)
  else
    let ix := libm_pow py iv 0.5 in
    if PrimFloat.is_infinity ix then Raise OverflowError else Ok (Real ix).

(** [sum((x - mean) ** 2 for x in xs)]: the generator is consumed item by
    item, so the first square that raises ends the sum. *)
Definition sum_sq_dev (py : python) (mean : float) (xs : list float) : exn float :=
  for_each (λ total x, square ← float_pow_2 py (PrimFloat.sub x mean);
                       Ok (PrimFloat.add total square))
           xs 0%float.

(** ** Python equality on parameter values and dicts *)

(** [f == z] for a float and an int compares the exact values. *)
Definition float_eq_Z (f : float) (z : Z) : bool :=
  match Prim2SF f with
  | S754_zero _ => Z.eqb z 0
  | S754_finite s m e =>
      let signed := if s then Z.neg m else Z.pos m in
      if Z.leb 0 e then Z.eqb z (signed * 2 ^ e) else Z.eqb signed (z * 2 ^ (- e))
  | _ => false
  end.

Definition py_eq (a b : json_value) : bool :=
  match a, b with
  | JInt x, JInt y => Z.eqb x y
  | JFloat x, JFloat y => PrimFloat.eqb x y
  | JString x, JString y => String.eqb x y
  | JBool x, JBool y => Bool.eqb x y
  | JInt x, JBool y | JBool y, JInt x => Z.eqb x (Z.b2z y)
  | JInt x, JFloat y | JFloat y, JInt x => float_eq_Z y x
  | JFloat x, JBool y | JBool y, JFloat x => float_eq_Z x (Z.b2z y)
  | _, _ => false
  end.

(** [a == b] on dicts: as many keys, and every key of [a] is in [b] with an
    equal value. *)
Definition py_dict_eq (a b : combo) : bool :=
  Nat.eqb (length a) (length b)
  && forallb (λ '(k, v), match odict.get k b with
                         | Some v' => py_eq v v'
                         | None => false
                         end) a.

(** ** Statistics Engine ([BenchmarkRunner]) *)

(** The values of the dict [calculate_descriptive_stats] returns: the
    count, floats, and for [std_dev] whatever [**] gave. *)
Inductive number :=
  | NInt (z : Z)
  | NFloat (f : float)
  | NComplex.

Definition calculate_descriptive_stats (py : python) (values : list float)
  : exn (odict number) :=
  match values with
  | [] => Ok []
  | _ =>
      let values := sorted py values in
      let n := Z.of_nat (length values) in
      mean ← truediv_int (py_sum values) n;
      variance ← (if Z.ltb 1 n
                  then total ← sum_sq_dev py mean values; truediv_int total (n - 1)
                  else Ok 0%float);
      std_dev ← float_pow_half py variance;
      median ← (if Z.eqb (n mod 2) 1 then py_index values (n / 2)
                else lo ← py_index values (n / 2 - 1);
                     hi ← py_index values (n / 2);
                     truediv (PrimFloat.add lo hi) 2);
      min ← py_index values 0;
      max ← py_index values (-1);
      q25 ← py_index values (n / 4);
      q75 ← py_index values (3 * n / 4);
      Ok [ ("count", NInt n); ("mean", NFloat mean); ("median", NFloat median);
           ("std_dev", match std_dev with Real f => NFloat f | Complex => NComplex end);
           ("min", NFloat min); ("max", NFloat max);
           ("q25", NFloat q25); ("q75", NFloat q75) ]
  end.

(** A complex [pooled_std] makes [pooled_std > 0] raise [TypeError]. *)
Definition compare_implementations (py : python) (data_a data_b : list float)
    (impl_a impl_b test_key : string) : exn (odict json_value) :=
  match data_a, data_b with
  | [], _ | _, [] =>
      Ok [ ("impl_a", JString impl_a); ("impl_b", JString impl_b);
           ("test", JString test_key); ("significant", JBool false);
           ("effect_size", JFloat 0); ("performance_ratio", JFloat 1) ]
  | _, _ =>
      let len_a := Z.of_nat (length data_a) in
      let len_b := Z.of_nat (length data_b) in
      mean_a ← truediv_int (py_sum data_a) len_a;
      mean_b ← truediv_int (py_sum data_b) len_b;
      squares_a ← sum_sq_dev py mean_a data_a;
      squares_b ← sum_sq_dev py mean_b data_b;
      pooled_var ← truediv_int (PrimFloat.add squares_a squares_b) (len_a + len_b - 2);
      pooled_std ← float_pow_half py pooled_var;
      pooled_std ← (match pooled_std with
                    | Real pooled_std => Ok pooled_std
                    | Complex => Raise TypeError
                    end);
      effect_size ← (if PrimFloat.ltb 0 pooled_std
                     then truediv (PrimFloat.sub mean_a mean_b) pooled_std
                     else Ok 0%float);
      let significant := PrimFloat.ltb 0.5 (PrimFloat.abs effect_size) in
      performance_ratio ← (if PrimFloat.ltb 0 mean_a then truediv mean_b mean_a
                           else Ok 1%float);
      Ok [ ("impl_a", JString impl_a); ("impl_b", JString impl_b);
           ("test", JString test_key);
           ("mean_a", JFloat mean_a); ("mean_b", JFloat mean_b);
           ("effect_size", JFloat effect_size); ("significant", JBool significant);
           ("performance_ratio", JFloat performance_ratio);
           ("winner", JString (if PrimFloat.ltb mean_a mean_b then impl_a else impl_b)) ]
  end.

(** ** Execution results *)

(** The dict [run_single_test] returns.  Keys that only one of its two
    shapes carries are optional; [success] is read with
    [result.get('success', False)]. *)
Record execution_result := ExecutionResult {
  implementation : string;
  test_name : string;
  category : string;
  parameters : combo;
  success : bool;
  mean_time_seconds : option float;
  ops_per_second : option float;
  timing_results : list float;
  iterations : option Z;
  error : option string;
}.

(** ** Statistical analysis over all results *)

Record StatisticalResults := {
  descriptive_stats : odict (odict number);
  pairwise_comparisons : list (odict json_value);
  effect_sizes : odict json_value;
  outliers : odict json_value;
}.

(** Body of the grouping loop for one [result] of [impl_id]. *)
Definition group_result (impl_id : string)
    (grouped_results : odict (odict (list float))) (result : execution_result)
  : odict (odict (list float)) :=
  if negb (success result) then grouped_results
  else
    let test_key := category result +:+ "_" +:+ test_name result in
    let grouped_results :=
      if negb (odict.mem test_key grouped_results)
      then odict.set test_key [] grouped_results
      else grouped_results in
    odict.set test_key
      (odict.set impl_id (timing_results result)
         (default [] (odict.get test_key grouped_results)))
      grouped_results.

Definition group_results (results : odict (list execution_result))
  : odict (odict (list float)) :=
  fold_left (λ grouped '(impl_id, impl_results),
               fold_left (group_result impl_id) impl_results grouped)
            results [].

(** The pairs [(impl_ids[i], impl_ids[j])] with [i < j], in loop order. *)
Fixpoint index_pairs (impl_ids : list string) : list (string * string) :=
  match impl_ids with
  | [] => []
  | impl_a :: rest => map (pair impl_a) rest ++ index_pairs rest
  end.

(** One group: its descriptive statistics, then its pairwise comparisons. *)
Definition analyse_group (py : python) (statistical_results : StatisticalResults)
    (test_key : string) (test_data : odict (list float))
    : exn StatisticalResults :=
  stats_dict ←
    for_each (λ acc '(impl_id, timings),
                match timings with
                | [] => Ok acc
                | _ => stats ← calculate_descriptive_stats py timings;
                       Ok (odict.set (test_key +:+ "_" +:+ impl_id) stats acc)
                end)
             test_data (descriptive_stats statistical_results);
  comparisons ←
    for_each (λ acc '(impl_a, impl_b),
                match odict.get impl_a test_data, odict.get impl_b test_data with
                | Some data_a, Some data_b =>
                    comparison ← compare_implementations py data_a data_b
                                    impl_a impl_b test_key;
                    Ok (acc ++ [comparison])
                | _, _ => Ok acc
                end)
             (index_pairs (odict.keys test_data))
             (pairwise_comparisons statistical_results);
  Ok {| descriptive_stats := stats_dict;
        pairwise_comparisons := comparisons;
        effect_sizes := effect_sizes statistical_results;
        outliers := outliers statistical_results |}.

Definition perform_statistical_analysis (py : python)
    (results : odict (list execution_result)) : exn StatisticalResults :=
  let grouped_results := group_results results in
  for_each (λ acc '(test_key, test_data), analyse_group py acc test_key test_data)
           grouped_results
           {| descriptive_stats := []; pairwise_comparisons := [];
              effect_sizes := []; outliers := [] |}.

(** ** Regression Detector *)

Record regression_analysis := RegressionAnalysis {
  regressions : list (odict json_value);
  improvements : list (odict json_value);
  baseline_file : string;
}.

(** The search loop: the first baseline entry with the same test name,
    category and parameters. *)
Definition find_baseline_test (baseline_impl : list execution_result)
    (result : execution_result) : option execution_result :=
  List.find (λ baseline_result,
               String.eqb (test_name baseline_result) (test_name result)
               && String.eqb (category baseline_result) (category result)
               && py_dict_eq (parameters baseline_result) (parameters result))
            baseline_impl.

(** [((current_perf - baseline_perf) / baseline_perf) * 100] *)
Definition change_percent (current_perf baseline_perf : float) : exn float :=
  ratio ← truediv (PrimFloat.sub current_perf baseline_perf) baseline_perf;
  Ok (PrimFloat.mul ratio 100).

(** The part of the loop body after a baseline entry was found. *)
Definition compare_to_baseline (impl_id : string) (result baseline_test : execution_result)
    (acc : list (odict json_value) * list (odict json_value))
  : exn (list (odict json_value) * list (odict json_value)) :=
  let '(regressions, improvements) := acc in
  let current_perf := default 0%float (ops_per_second result) in
  let baseline_perf := default 0%float (ops_per_second baseline_test) in
  if PrimFloat.ltb 0 baseline_perf then
    change_percent ← change_percent current_perf baseline_perf;
    if PrimFloat.ltb change_percent (-5) then
      Ok (regressions ++
            [[ ("implementation", JString impl_id);
               ("test", JString (test_name result));
               ("category", JString (category result));
               ("degradation_percent", JFloat (PrimFloat.abs change_percent));
               ("current_performance", JFloat current_perf);
               ("baseline_performance", JFloat baseline_perf) ]],
          improvements)
    else if PrimFloat.ltb 5 change_percent then
      Ok (regressions,
          improvements ++
            [[ ("implementation", JString impl_id);
               ("test", JString (test_name result));
               ("category", JString (category result));
               ("improvement_percent", JFloat change_percent);
               ("current_performance", JFloat current_perf);
               ("baseline_performance", JFloat baseline_perf) ]])
    else Ok (regressions, improvements)
  else Ok (regressions, improvements).

(** Body of [for result in impl_results]. *)
Definition check_result (impl_id : string) (baseline_impl : list execution_result)
    (acc : list (odict json_value) * list (odict json_value))
    (result : execution_result)
  : exn (list (odict json_value) * list (odict json_value)) :=
  if negb (success result) then Ok acc
  else match find_baseline_test baseline_impl result with
       | None => Ok acc
       | Some baseline_test => compare_to_baseline impl_id result baseline_test acc
       end.

(** Body of [for impl_id, impl_results in results.items()]. *)
Definition check_implementation (baseline_results : odict (list execution_result))
    (acc : list (odict json_value) * list (odict json_value))
    (entry : string * list execution_result)
  : exn (list (odict json_value) * list (odict json_value)) :=
  let '(impl_id, impl_results) := entry in
  match odict.get impl_id baseline_results with
  | None => Ok acc
  | Some baseline_impl =>
      for_each (check_result impl_id baseline_impl) impl_results acc
  end.

(** [regression_baseline] is the command-line argument; [load_baseline]
    stands for opening and parsing that file, [None] when either raises.
    The result [None] is the empty dict [{}]. *)
Definition detect_regressions (regression_baseline : option string)
    (load_baseline : string → option (odict (list execution_result)))
    (results : odict (list execution_result)) : option regression_analysis :=
  match regression_baseline with
  | None | Some EmptyString => None
  | Some path =>
      match load_baseline path with
      | None => None
      | Some baseline_results =>
          match for_each (check_implementation baseline_results) results ([], []) with
          | Ok (regressions, improvements) =>
              Some {| regressions := regressions;
                      improvements := improvements;
                      baseline_file := path |}
          | Raise _ => None
          end
      end
  end.

(** ** Execution Sandbox *)

Record runtime := Runtime {
  target_dir : string;
  profile : string;
  binary_path : string;
  args : list string;
}.

Record implementation_target := ImplementationTarget {
  impl_id : string;
  impl_name : string;
  impl_runtime : runtime;
}.

Record test_definition := TestDefinition {
  t_name : string;
  code_template : string;
  t_parameters : list parameter;
}.

(** [config['statistical_config']] *)
Record statistical_config := StatisticalConfig {
  cfg_iterations : Z;
  cfg_warmup_iterations : Z;
}.

(** What [subprocess.run] does with one command: the process exits, the
    timeout expires, or the call raises another exception.  The timeout and
    the environment variables passed along only bear on which of these the
    host produces. *)
Inductive process_outcome :=
  | Completed (returncode : Z) (stdout stderr : string)
  | TimeoutExpired
  | SpawnFailed (message : string).

(** What creating the temporary file and writing the code to it does: the
    file is written and closed; or the file is created and [f.write] or the
    close that ends the [with] block raises (an unencodable character, a
    full disk), which leaves the file on disk with whatever reached it; or
    the creation itself raises and there is no file. *)
Inductive file_outcome :=
  | Written
  | WriteFailed (e : exception) (remains : string)
  | CreateFailed (e : exception).

(** The host the sandbox runs on: the path chosen for the n-th temporary
    file (without its suffix), what creating that file with a given content
    does, the outcome of the n-th process spawned, the n-th reading of the
    clock, and the text [str] gives for a float. *)
Record host := Host {
  temp_stem : nat → string;
  write_temp : nat → string → file_outcome;
  run_process : nat → list string → process_outcome;
  clock : nat → float;
  float_repr : float → string;
}.

(** The mutable state: the files on disk with their contents and the
    number of temporary files created, processes spawned and clock readings
    so far. *)
Record world := World {
  files : gmap string string;
  created : nat;
  spawned : nat;
  ticks : nat;
}.

Definition sandbox (A : Type) : Type := world → exn A * world.

#[global] Instance sandbox_ret : MRet sandbox := λ A a w, (Ok a, w).
#[global] Instance sandbox_bind : MBind sandbox := λ A B k m w,
  match m w with
  | (Ok a, w') => k a w'
  | (Raise e, w') => (Raise e, w')
  end.

Definition lift_exn {A} (m : exn A) : sandbox A := λ w, (m, w).

(** [try: body finally: cleanup]: the cleanup runs on both exits of the
    body; the body's result or exception is kept unless the cleanup raises. *)
Definition try_finally {A} (body : sandbox A) (cleanup : sandbox unit) : sandbox A :=
  λ w, let '(r, w') := body w in
       match cleanup w' with
       | (Ok _, w'') => (r, w'')
       | (Raise e, w'') => (Raise e, w'')
       end.

(** [old in s] replaced by [new], left to right, for a non-empty [old];
    [skip] counts the characters of a match still to be dropped. *)
Fixpoint replace_from (old new : string) (skip : nat) (s : string) : string :=
  match s with
  | EmptyString => EmptyString
  | String c rest =>
      match skip with
      | S k => replace_from old new k rest
      | O => if String.prefix old s
             then new +:+ replace_from old new (String.length old - 1) rest
             else String c (replace_from old new 0 rest)
      end
  end.

Definition str_replace (s old new : string) : string := replace_from old new 0 s.

Section runner.
Context (h : host) (config : statistical_config).

(** [str(param_value)] *)
Definition py_str (v : json_value) : string :=
  match v with
  | JInt z => pretty z
  | JFloat f => float_repr h f
  | JString s => s
  | JBool true => "True"
  | JBool false => "False"
  end.

(** The substitution loop over [params.items()]. *)
Definition substitute_parameters (code : string) (params : combo) : string :=
  fold_left (λ code '(param_name, param_value),
               str_replace code ("{" +:+ param_name +:+ "}") (py_str param_value))
            params code.

(** [tempfile.NamedTemporaryFile(mode='w', suffix=..., delete=False)]
    with the [f.write(code)] of its block; the result is [f.name].  As the
    file is opened with [delete=False], leaving the block by an exception
    closes it and keeps it. *)
Definition named_temporary_file (suffix code : string) : sandbox string :=
  λ w, let path := temp_stem h (created w) +:+ suffix in
       match write_temp h (created w) code with
       | Written =>
           (Ok path, {| files := <[path := code]> (files w);
                        created := S (created w);
                        spawned := spawned w; ticks := ticks w |})
       | WriteFailed e remains =>
           (Raise e, {| files := <[path := remains]> (files w);
                        created := S (created w);
                        spawned := spawned w; ticks := ticks w |})
       | CreateFailed e => (Raise e, w)
       end.

(** [os.unlink(path)] *)
Definition os_unlink (path : string) : sandbox unit :=
  λ w, match files w !! path with
       | None => (Raise (FileNotFoundError path), w)
       | Some _ => (Ok (), {| files := delete path (files w);
                              created := created w;
                              spawned := spawned w; ticks := ticks w |})
       end.

(** [time.time()] *)
Definition time_time : sandbox float :=
  λ w, (Ok (clock h (ticks w)),
        {| files := files w; created := created w;
           spawned := spawned w; ticks := S (ticks w) |}).

(** [subprocess.run(cmd, ..., timeout=...)] *)
Definition subprocess_run (cmd : list string) : sandbox process_outcome :=
  λ w, (Ok (run_process h (spawned w) cmd),
        {| files := files w; created := created w;
           spawned := S (spawned w); ticks := ticks w |}).

(** The [cmd] list of [execute_test_file]. *)
Definition command_line (impl : implementation_target) (test_file : string)
  : list string :=
  if String.eqb (impl_id impl) "lambdust"
  then [ target_dir (impl_runtime impl) +:+ "/" +:+ profile (impl_runtime impl)
           +:+ "/lambdust"; "--batch"; test_file ]
  else [binary_path (impl_runtime impl)] ++ args (impl_runtime impl) ++ [test_file].

(** What [execute_test_file] returns for each outcome of the process: the
    [return] of the [try] block and its two [except] clauses. *)
Definition interpret_outcome (result : process_outcome) : bool * string * string :=
  match result with
  | Completed returncode stdout stderr => (Z.eqb returncode 0, stdout, stderr)
  | TimeoutExpired => (false, EmptyString, "Test timed out")
  | SpawnFailed message => (false, EmptyString, message)
  end.

Definition execute_test_file (impl : implementation_target) (test_file : string)
  : sandbox (bool * string * string) :=
  let cmd := command_line impl test_file in
  result ← subprocess_run cmd;
  mret (interpret_outcome result).

(** [for _ in range(warmup): self.execute_test_file(impl, temp_file)] *)
Fixpoint warmup_runs (impl : implementation_target) (temp_file : string)
    (warmup : nat) : sandbox unit :=
  match warmup with
  | O => mret ()
  | S warmup => _ ← execute_test_file impl temp_file;
                warmup_runs impl temp_file warmup
  end.

(** The measurement loop, with [iterations] rounds still to go.  It
    carries [timing_results] and the local variable [error], which is
    unbound ([None]) until the first round assigns it; a failed round is
    the [break]. *)
Fixpoint measurement_runs (impl : implementation_target) (temp_file : string)
    (iterations : nat) (timing_results : list float) (error : option string)
  : sandbox (list float * option string) :=
  match iterations with
  | O => mret (timing_results, error)
  | S iterations =>
      start_time ← time_time;
      '(success, output, error) ← execute_test_file impl temp_file;
      end_time ← time_time;
      if success : bool
      then measurement_runs impl temp_file iterations
             (timing_results ++ [PrimFloat.sub end_time start_time]) (Some error)
      else mret (timing_results, Some error)
  end.

(** The [try] block of [run_single_test]. *)
Definition run_single_test_body (impl : implementation_target)
    (test : test_definition) (params : combo) (category temp_file : string)
  : sandbox execution_result :=
  let iterations := cfg_iterations config in
  let warmup := cfg_warmup_iterations config in
  _ ← warmup_runs impl temp_file (Z.to_nat warmup);
  '(timing_results, error) ←
     measurement_runs impl temp_file (Z.to_nat iterations) [] None;
  match timing_results with
  | _ :: _ =>
      mean_time ← lift_exn (truediv_int (py_sum timing_results)
                              (Z.of_nat (length timing_results)));
      ops_per_second ← lift_exn (if PrimFloat.ltb 0 mean_time
                                 then truediv 1 mean_time else Ok 0%float);
      mret {| implementation := impl_id impl;
              test_name := t_name test;
              category := category;
              parameters := params;
              success := true;
              mean_time_seconds := Some mean_time;
              ops_per_second := Some ops_per_second;
              timing_results := timing_results;
              iterations := Some (Z.of_nat (length timing_results));
              error := None |}
  | [] =>
      match error with
      | None => lift_exn (Raise (UnboundLocalError "error"))
      | Some error =>
          mret {| implementation := impl_id impl;
                  test_name := t_name test;
                  category := category;
                  parameters := params;
                  success := false;
                  mean_time_seconds := None;
                  ops_per_second := None;
                  timing_results := [];
                  iterations := None;
                  error := Some (if String.eqb error EmptyString then "Test execution failed"
                                 else error) |}
      end
  end.

Definition run_single_test (impl : implementation_target) (test : test_definition)
    (params : combo) (category : string) : sandbox execution_result :=
  let code := substitute_parameters (code_template test) params in
  let file_extension :=
    if String.eqb (impl_id impl) "lambdust" then ".ldust" else ".scm" in
  temp_file ← named_temporary_file file_extension code;
  try_finally
    (run_single_test_body impl test params category temp_file)
    (os_unlink temp_file).
End runner.

(** ** Statistics block of [BenchmarkProcessor.generate_statistics] *)

(** A raw result as [process_results.py] reads it. *)
Record raw_result := RawResult {
  duration : option float;
  user_time : option float;
  max_memory_kb : option float;
}.

(** [min(xs)] and [max(xs)] *)
Definition py_min (xs : list float) : exn float :=
  match xs with
  | [] => Raise ValueError
  | x :: rest => Ok (fold_left (λ m y, if PrimFloat.ltb y m then y else m) rest x)
  end.

Definition py_max (xs : list float) : exn float :=
  match xs with
  | [] => Raise ValueError
  | x :: rest => Ok (fold_left (λ m y, if PrimFloat.ltb m y then y else m) rest x)
  end.

Section processor.
(** The functions of Python's [statistics] module are taken as given;
    [quantiles xs n] is [statistics.quantiles(xs, n=n)]. *)
Context (mean median stdev : list float → exn float)
        (quantiles : list float → Z → exn (list float)).

(** The body of the loop over [test_results.items()] for one
    implementation; [None] is a [continue], which leaves no entry. *)
Definition impl_statistics (impl_results : list raw_result)
  : exn (option (odict json_value)) :=
  match impl_results with
  | [] => Ok None
  | _ =>
      let durations := omap duration impl_results in
      let user_times := omap user_time impl_results in
      let memory_usage := omap max_memory_kb impl_results in
      match durations with
      | [] => Ok None
      | _ =>
          let len := Z.of_nat (length durations) in
          duration_mean ← mean durations;
          duration_median ← median durations;
          duration_stdev ← (if Z.ltb 1 len then stdev durations else Ok 0%float);
          duration_min ← py_min durations;
          duration_max ← py_max durations;
          let impl_stats :=
            [ ("count", JInt len);
              ("duration_mean", JFloat duration_mean);
              ("duration_median", JFloat duration_median);
              ("duration_stdev", JFloat duration_stdev);
              ("duration_min", JFloat duration_min);
              ("duration_max", JFloat duration_max) ] in
          impl_stats ←
            (if Z.leb 4 len then
               q ← quantiles durations 4; p25 ← py_index q 0;
               q ← quantiles durations 4; p75 ← py_index q 2;
               Ok (odict.set "duration_p75" (JFloat p75)
                     (odict.set "duration_p25" (JFloat p25) impl_stats))
             else Ok impl_stats);
          impl_stats ←
            (if Z.leb 10 len then
               q ← quantiles durations 10; p90 ← py_index q 8;
               q ← quantiles durations 20; p95 ← py_index q 18;
               q ← quantiles durations 100; p99 ← py_index q 98;
               Ok (odict.set "duration_p99" (JFloat p99)
                     (odict.set "duration_p95" (JFloat p95)
                        (odict.set "duration_p90" (JFloat p90) impl_stats)))
             else Ok impl_stats);
          impl_stats ←
            (match user_times with
             | [] => Ok impl_stats
             | _ =>
                 user_time_mean ← mean user_times;
                 user_time_median ← median user_times;
                 user_time_stdev ← (if Z.ltb 1 (Z.of_nat (length user_times))
                                    then stdev user_times else Ok 0%float);
                 Ok (odict.set "user_time_stdev" (JFloat user_time_stdev)
                       (odict.set "user_time_median" (JFloat user_time_median)
                          (odict.set "user_time_mean" (JFloat user_time_mean)
                             impl_stats)))
             end);
          impl_stats ←
            (match memory_usage with
             | [] => Ok impl_stats
             | _ =>
                 memory_mean_kb ← mean memory_usage;
                 memory_median_kb ← median memory_usage;
                 memory_max_kb ← py_max memory_usage;
                 memory_min_kb ← py_min memory_usage;
                 Ok (odict.set "memory_min_kb" (JFloat memory_min_kb)
                       (odict.set "memory_max_kb" (JFloat memory_max_kb)
                          (odict.set "memory_median_kb" (JFloat memory_median_kb)
                             (odict.set "memory_mean_kb" (JFloat memory_mean_kb)
                                impl_stats))))
             end);
          Ok (Some impl_stats)
      end
  end.
End processor.

(** The keys under which either statistics routine reports a quartile or
    another percentile. *)
Definition percentile_keys : list string :=
  ["q25"; "q75"; "duration_p25"; "duration_p75";
   "duration_p90"; "duration_p95"; "duration_p99"].

(** ** Reference points of the specification *)

(** Lexicographic order as the specification words it: the first declared
    parameter varies slowest, and under it the remaining parameters are
    expanded in the same way; every parameter's values come in declared
    order. *)
Fixpoint lexicographic_combinations (parameters : list parameter) : list combo :=
  match parameters with
  | [] => [[]]
  | param :: rest =>
      value_def ← p_values param;
      combination ← lexicographic_combinations rest;
      match extract_value value_def with
      | Some value => [odict.set (p_name param) value combination]
      | None => []
      end
  end.

(** The content of each combination: its keys with their values, whatever
    the insertion order. *)
Definition contents (combinations : list combo) : list (gmap string json_value) :=
  odict.to_gmap <$> combinations.

(** A schema whose values are all of a supported type. *)
Definition all_supported (parameters : list parameter) : Prop :=
  Forall (λ param, Forall (λ value_def, is_Some (extract_value value_def))
                          (p_values param)) parameters.

(** The results of every implementation without the failed ones. *)
Definition successful_only (results : odict (list execution_result))
  : odict (list execution_result) :=
  prod_map id (filter (λ result, success result = true)) <$> results.

(** The number of combinations the cross-product has: the product of the
    sizes of the value lists, [1] for no parameter. *)
Definition expected_count (parameters : list parameter) : nat :=
  foldr (λ param acc, length (p_values param) * acc) 1 parameters.

(** Schemas used as examples. *)
Definition schema_ab : list parameter :=
  [ Param "a" [ValueDef "Integer" (JInt 1); ValueDef "Integer" (JInt 2)];
    Param "b" [ValueDef "String" (JString "x"); ValueDef "String" (JString "y")] ].

Definition schema_unusable : list parameter :=
  [ Param "a" [ValueDef "Integer" (JInt 1); ValueDef "Integer" (JInt 2)];
    Param "b" [ValueDef "Symbol" (JString "x")];
    Param "c" [ValueDef "Boolean" (JBool true)] ].

(** [sum(data) / len(data)] *)
Definition mean_of (data : list float) : exn float :=
  truediv_int (py_sum data) (Z.of_nat (length data)).

(** The pooled variance of two sample sets from their sums of squares:
    [(squares_a + squares_b) / (len_a + len_b - 2)]. *)
Definition pooled_variance (squares_a squares_b : float) (len_a len_b : nat) : float :=
  PrimFloat.div (PrimFloat.add squares_a squares_b)
    (PrimFloat.of_uint63 (Uint63.of_Z (Z.of_nat len_a + Z.of_nat len_b - 2))).

(** ** Reference points for the interpreter *)

(** What the properties below ask of [sorted]: it returns its argument
    rearranged.  In which order, when a NaN is among the elements, is left
    to the interpreter. *)
Definition sorted_rearranges (py : python) : Prop :=
  ∀ xs, sorted py xs ≡ₚ xs.

(** An interpreter for the examples: a stable insertion sort that compares
    with [<] only, as [sorted] does, and a C library whose [pow] is
    correctly rounded at the two exponents the program uses. *)
Fixpoint insert_sorted (x : float) (xs : list float) : list float :=
  match xs with
  | [] => [x]
  | y :: rest => if PrimFloat.ltb x y then x :: y :: rest else y :: insert_sorted x rest
  end.

Definition insertion_sort (xs : list float) : list float :=
  fold_left (λ acc x, insert_sorted x acc) xs [].

Definition reference_pow (x y : float) : float :=
  if PrimFloat.eqb y 0.5 then PrimFloat.sqrt x else PrimFloat.mul x x.

Definition reference_python : python :=
  {| libm_pow := reference_pow; sorted := insertion_sort |}.

(** ** Reference points for the regression detector *)

(** Two parameter values of one JSON type that are equal, and two that
    differ. *)
Inductive equal_values : json_value → json_value → Prop :=
  | equal_int (z : Z) : equal_values (JInt z) (JInt z)
  | equal_float (x y : float) :
      PrimFloat.eqb x y = true → equal_values (JFloat x) (JFloat y)
  | equal_string (s : string) : equal_values (JString s) (JString s)
  | equal_bool (b : bool) : equal_values (JBool b) (JBool b).

Inductive distinct_values : json_value → json_value → Prop :=
  | distinct_int (x y : Z) : x ≠ y → distinct_values (JInt x) (JInt y)
  | distinct_float (x y : float) :
      PrimFloat.eqb x y = false → distinct_values (JFloat x) (JFloat y)
  | distinct_string (s t : string) : s ≠ t → distinct_values (JString s) (JString t)
  | distinct_bool (a b : bool) : a ≠ b → distinct_values (JBool a) (JBool b).

(** The same parameter combination: as many parameters, and every
    parameter of the one is a parameter of the other with an equal value. *)
Definition same_combination (a b : combo) : Prop :=
  length a = length b
  ∧ ∀ k x, (k, x) ∈ a → ∃ y, odict.get k b = Some y ∧ equal_values x y.

(** Another parameter combination: another number of parameters, or a
    parameter of the one that the other lacks or holds with another value. *)
Definition different_combination (a b : combo) : Prop :=
  length a ≠ length b
  ∨ ∃ k x, (k, x) ∈ a ∧ match odict.get k b with
                         | Some y => distinct_values x y
                         | None => True
                         end.

(** A baseline entry has the key of a result (test name, category and
    parameter combination), or another key. *)
Definition same_key (baseline_result result : execution_result) : Prop :=
  test_name baseline_result = test_name result
  ∧ category baseline_result = category result
  ∧ same_combination (parameters baseline_result) (parameters result).

Definition other_key (baseline_result result : execution_result) : Prop :=
  test_name baseline_result ≠ test_name result
  ∨ category baseline_result ≠ category result
  ∨ different_combination (parameters baseline_result) (parameters result).

(** ** Reference points for the sandbox *)

(** The file extension [run_single_test] picks for an implementation. *)
Definition file_extension_of (impl : implementation_target) : string :=
  if String.eqb (impl_id impl) "lambdust" then ".ldust" else ".scm".

(** The path of the temporary file a run started in world [w] creates. *)
Definition temp_file_of (h : host) (impl : implementation_target) (w : world) : string :=
  temp_stem h (created w) +:+ file_extension_of impl.

(** An invocation succeeded: the process exited with code 0 (it neither
    timed out nor failed to start). *)
Definition succeeded (result : process_outcome) : bool :=
  (interpret_outcome result).1.1.

(** The world after [spawns] more processes and [readings] more clock
    readings. *)
Definition advance (w : world) (spawns readings : nat) : world :=
  {| files := files w; created := created w;
     spawned := spawned w + spawns; ticks := ticks w + readings |}.

(** The time measured for the [i]-th timed invocation when the clock had
    been read [t] times before the first one. *)
Definition elapsed (h : host) (t i : nat) : float :=
  PrimFloat.sub (clock h (t + 2 * i + 1)) (clock h (t + 2 * i)).

(** A host on which the first process exits with 0, the second with 1 and
    every later one times out; its clock reads 0, 1, 4, 9, ... *)
Definition host_ok_then_fail : host :=
  {| temp_stem := λ n, "/tmp/tmp" +:+ pretty n;
     write_temp := λ n code, Written;
     run_process := λ n cmd,
       match n with
       | 0 => Completed 0 "ok" EmptyString
       | 1 => Completed 1 EmptyString "boom"
       | _ => TimeoutExpired
       end;
     clock := λ n, float_of_nat (n * n);
     float_repr := λ _, "0.5" |}.

(** A host on which every process times out. *)
Definition host_timeout : host :=
  {| temp_stem := λ n, "/tmp/tmp" +:+ pretty n;
     write_temp := λ n code, Written;
     run_process := λ n cmd, TimeoutExpired;
     clock := λ n, float_of_nat n;
     float_repr := λ _, "0.5" |}.

(** A host whose disk is full: the temporary file is created, and the
    write of its content raises and leaves it empty. *)
Definition host_disk_full : host :=
  {| temp_stem := λ n, "/tmp/tmp" +:+ pretty n;
     write_temp := λ n code, WriteFailed (OSError "No space left on device") EmptyString;
     run_process := λ n cmd, Completed 0 "ok" EmptyString;
     clock := λ n, float_of_nat n;
     float_repr := λ _, "0.5" |}.

(** The temporary file of a run started in world [w] can be created and
    written. *)
Definition temp_file_written (h : host) (test : test_definition) (params : combo)
    (w : world) : Prop :=
  write_temp h (created w) (substitute_parameters h (code_template test) params)
  = Written.

Definition empty_world : world :=
  {| files := ∅; created := 0; spawned := 0; ticks := 0 |}.

Definition chez : implementation_target :=
  {| impl_id := "chez"; impl_name := "Chez Scheme";
     impl_runtime := {| target_dir := "target"; profile := "release";
                        binary_path := "/usr/bin/chez"; args := ["--script"] |} |}.

Definition fib_test : test_definition :=
  {| t_name := "fib"; code_template := "(display (fib {n}))";
     t_parameters := [Param "n" [ValueDef "Integer" (JInt 30)]] |}.

Definition three_runs : statistical_config :=
  {| cfg_iterations := 3; cfg_warmup_iterations := 0 |}.

Definition no_runs : statistical_config :=
  {| cfg_iterations := 0; cfg_warmup_iterations := 1 |}.

(** Timing samples used as examples (seconds). *)
Definition samples_1_3 : list float := [1; 3]%float.
Definition samples_2_2 : list float := [2; 2]%float.
Definition samples_fast : list float := [0.25; 0.5; 0.75]%float.
Definition samples_slow : list float := [0.5; 1; 1.5]%float.

(** The record appended to [regressions] and the one appended to
    [improvements]. *)
Definition regression_record (impl_id test category : string)
    (degradation_percent current_perf baseline_perf : float) : odict json_value :=
  [ ("implementation", JString impl_id); ("test", JString test);
    ("category", JString category);
    ("degradation_percent", JFloat degradation_percent);
    ("current_performance", JFloat current_perf);
    ("baseline_performance", JFloat baseline_perf) ].

Definition improvement_record (impl_id test category : string)
    (improvement_percent current_perf baseline_perf : float) : odict json_value :=
  [ ("implementation", JString impl_id); ("test", JString test);
    ("category", JString category);
    ("improvement_percent", JFloat improvement_percent);
    ("current_performance", JFloat current_perf);
    ("baseline_performance", JFloat baseline_perf) ].

(** A successful result of implementation [chez] on test [fib] with
    [n = 30], running at [ops] operations per second. *)
Definition fib_result (ops : float) : execution_result :=
  {| implementation := "chez"; test_name := "fib"; category := "recursion";
     parameters := [("n", JInt 30)]; success := true;
     mean_time_seconds := Some (PrimFloat.div 1 ops);
     ops_per_second := Some ops;
     timing_results := [PrimFloat.div 1 ops];
     iterations := Some 1%Z; error := None |}.

(** What one current [result] of [impl_id] adds to the two lists: the loop
    body for that result, started from empty lists. *)
Definition records_added (baseline_results : odict (list execution_result))
    (impl_id : string) (result : execution_result)
  : list (odict json_value) * list (odict json_value) :=
  match check_implementation baseline_results ([], []) (impl_id, [result]) with
  | Ok added => added
  | Raise _ => ([], [])
  end.

(** A successful result of [impl] on [test] in [category] with parameter
    [n], running at [ops] operations per second. *)
Definition result_of (impl test category : string) (n : Z) (ops : float)
  : execution_result :=
  {| implementation := impl; test_name := test; category := category;
     parameters := [("n", JInt n)]; success := true;
     mean_time_seconds := Some (PrimFloat.div 1 ops);
     ops_per_second := Some ops;
     timing_results := [PrimFloat.div 1 ops];
     iterations := Some 1%Z; error := None |}.

(** A baseline file: for [chez] the entry of [fib] with [n = 30] in
    [recursion] at 100 operations per second stands behind entries for
    other parameters, another test and another category, and before a
    second entry with its key; [guile] has that test at 10. *)
Definition baseline_100 : odict (list execution_result) :=
  [ ("guile", [result_of "guile" "fib" "recursion" 30 10]);
    ("chez", [ result_of "chez" "fib" "recursion" 20 50;
               result_of "chez" "tak" "recursion" 30 70;
               result_of "chez" "fib" "iteration" 30 80;
               fib_result 100;
               fib_result 1000 ]) ].

(** Detection of the current results [current] of [chez] against that
    baseline file. *)
Definition detect_against_100 (current : list execution_result)
  : option regression_analysis :=
  detect_regressions (Some "baseline.json")
    (λ _, Some baseline_100) [("chez", current)].


(** ** Reference points for the further properties *)

(** The schema without the value entries of an unsupported type. *)
Definition supported_only (parameters : list parameter) : list parameter :=
  (λ param, Param (p_name param)
              (filter (λ value_def, is_Some (extract_value value_def)) (p_values param)))
  <$> parameters.

(** [m] assigns to every parameter of the schema one of its usable values,
    and has no other key. *)
Definition assigns_declared_values (parameters : list parameter)
    (m : gmap string json_value) : Prop :=
  dom m = list_to_set (p_name <$> parameters)
  ∧ Forall (λ param, ∃ value_def value,
              value_def ∈ p_values param
              ∧ extract_value value_def = Some value
              ∧ m !! p_name param = Some value) parameters.

(** ** The benchmark sweep *)

(** One entry of [config['test_categories']]. *)
Record test_category := TestCategory {
  c_name : string;
  c_tests : list test_definition;
}.

(** A [for] loop over [xs] in the sandbox; an exception ends it. *)
Fixpoint sandbox_for_each {A B} (f : A → B → sandbox A) (xs : list B) (acc : A)
  : sandbox A :=
  match xs with
  | [] => mret acc
  | x :: rest => acc ← f acc x; sandbox_for_each f rest acc
  end.

Section sweep.
Context (h : host) (config : statistical_config).
Context (test_categories : list test_category).
Context (implementations : list implementation_target).

(** The innermost loop body: run one combination, append the result. *)
Definition run_and_append (impl : implementation_target) (category : test_category)
    (test : test_definition) (results : list execution_result) (param_combo : combo)
  : sandbox (list execution_result) :=
  result ← run_single_test h config impl test param_combo (c_name category);
  mret (results ++ [result]).

Definition run_implementation_benchmarks (impl : implementation_target)
  : sandbox (list execution_result) :=
  sandbox_for_each
    (λ results category,
       sandbox_for_each
         (λ results test,
            sandbox_for_each (run_and_append impl category test)
              (generate_parameter_combinations (t_parameters test)) results)
         (c_tests category) results)
    test_categories [].

(** [lambdust] is left to the Docker benchmarks. *)
Definition run_native_benchmarks : sandbox (odict (list execution_result)) :=
  sandbox_for_each
    (λ results impl,
       if String.eqb (impl_id impl) "lambdust" then mret results
       else impl_results ← run_implementation_benchmarks impl;
            mret (odict.set (impl_id impl) impl_results results))
    implementations [].
End sweep.

(** The invocations of a sweep in the order of its three nested loops:
    category, test name and parameter combination. *)
Definition planned_invocations (test_categories : list test_category)
  : list (string * string * combo) :=
  category ← test_categories;
  test ← c_tests category;
  param_combo ← generate_parameter_combinations (t_parameters test);
  [(c_name category, t_name test, param_combo)].

(** What a result says it ran. *)
Definition invocation_of (result : execution_result) : string * string * combo :=
  (category result, test_name result, parameters result).

(** A suite of two categories used as an example. *)
Definition two_categories : list test_category :=
  [ {| c_name := "recursion"; c_tests := [fib_test] |};
    {| c_name := "lists";
       c_tests := [ {| t_name := "append"; code_template := "(append {a} {b})";
                       t_parameters := schema_ab |} ] |} ].

(** During a sweep started in [w0]: the files are those of [w0], and no
    number of a temporary file is given out again. *)
Definition sweep_state (w0 w : world) : Prop :=
  files w = files w0 ∧ created w0 ≤ created w.

(** The results [new] are those of the invocations [plan], in order, and
    belong to [impl]. *)
Definition results_of (impl : implementation_target)
    (plan : list (string * string * combo)) (new : list execution_result) : Prop :=
  invocation_of <$> new = plan
  ∧ Forall (λ result, implementation result = impl_id impl) new.

(** Two native implementations and Lambdust itself. *)
Definition guile : implementation_target :=
  {| impl_id := "guile"; impl_name := "GNU Guile";
     impl_runtime := {| target_dir := "target"; profile := "release";
                        binary_path := "/usr/bin/guile"; args := [] |} |}.

Definition lambdust : implementation_target :=
  {| impl_id := "lambdust"; impl_name := "Lambdust";
     impl_runtime := {| target_dir := "target"; profile := "release";
                        binary_path := "lambdust"; args := [] |} |}.
(** * Properties *)

(** ** Dictionaries *)

Lemma to_gmap_set {V} (k : string) (v : V) (d : odict V) :
  odict.to_gmap (odict.set k v d) = <[k := v]> (odict.to_gmap d).
Proof.
  unfold odict.to_gmap.
  induction d as [|[k' v'] d IH]; simpl; [done|].
  destruct (String.eqb_spec k k') as [->|Hne]; simpl.
  - by rewrite insert_insert_eq.
  - rewrite IH. by apply insert_insert_ne.
Qed.

(** ** Order of binary64 floats *)

Lemma SFcompare_antisym (x y : spec_float) (c : comparison) :
  SFcompare x y = Some c → SFcompare y x = Some (CompOpp c).
Proof.
  destruct x as [[]|[]| |[] mx ex], y as [[]|[]| |[] my ey]; simpl;
    try discriminate; try (intros [= <-]; reflexivity).
  - intros [= <-]. rewrite (Z.compare_antisym ex ey).
    destruct (ex ?= ey)%Z; simpl; try reflexivity.
    pose proof (Pos.compare_cont_antisym mx my Eq) as H. simpl in H.
    rewrite <- H. by destruct (Pos.compare_cont Eq mx my).
  - intros [= <-]. rewrite (Z.compare_antisym ex ey).
    destruct (ex ?= ey)%Z; simpl; try reflexivity.
    pose proof (Pos.compare_cont_antisym mx my Eq) as H. simpl in H.
    rewrite <- H. by destruct (Pos.compare_cont Eq mx my).
Qed.

Lemma float_ltb_asym (x y : float) :
  PrimFloat.ltb x y = true → PrimFloat.ltb y x = false.
Proof.
  rewrite !FloatAxioms.ltb_spec. unfold SFltb.
  destruct (SFcompare (Prim2SF x) (Prim2SF y)) as [c|] eqn:Hc; [|done].
  rewrite (SFcompare_antisym _ _ _ Hc). by destruct c.
Qed.

Lemma float_ltb_not_eqb (x y : float) :
  PrimFloat.ltb x y = true → PrimFloat.eqb y x = false.
Proof.
  rewrite FloatAxioms.ltb_spec, FloatAxioms.eqb_spec. unfold SFltb, SFeqb.
  destruct (SFcompare (Prim2SF x) (Prim2SF y)) as [c|] eqn:Hc; [|done].
  rewrite (SFcompare_antisym _ _ _ Hc). by destruct c.
Qed.

Lemma float_eqb_not_ltb (x y : float) :
  PrimFloat.eqb x y = true → PrimFloat.ltb x y = false ∧ PrimFloat.ltb y x = false.
Proof.
  rewrite !FloatAxioms.ltb_spec, FloatAxioms.eqb_spec. unfold SFltb, SFeqb.
  destruct (SFcompare (Prim2SF x) (Prim2SF y)) as [c|] eqn:Hc; [|done].
  rewrite (SFcompare_antisym _ _ _ Hc). by destruct c.
Qed.

Lemma float_leb_not_ltb (x y : float) :
  PrimFloat.leb x y = true → PrimFloat.ltb y x = false.
Proof.
  rewrite FloatAxioms.ltb_spec, FloatAxioms.leb_spec. unfold SFltb, SFleb.
  destruct (SFcompare (Prim2SF x) (Prim2SF y)) as [c|] eqn:Hc; [|done].
  rewrite (SFcompare_antisym _ _ _ Hc). by destruct c.
Qed.

(** Nothing is both above [5] and below [-5]. *)
Lemma float_above_5_not_below_minus_5 (x : float) :
  PrimFloat.ltb 5 x = true → PrimFloat.ltb x (-5) = false.
Proof.
  rewrite !FloatAxioms.ltb_spec. unfold SFltb.
  let v := eval vm_compute in (Prim2SF 5) in change (Prim2SF 5) with v.
  let v := eval vm_compute in (Prim2SF (-5)) in change (Prim2SF (-5)) with v.
  by destruct (Prim2SF x) as [[]|[]| |[] m e].
Qed.

Lemma truediv_positive (x y : float) :
  PrimFloat.ltb 0 y = true → truediv x y = Ok (PrimFloat.div x y).
Proof. intros Hy. unfold truediv. by rewrite (float_ltb_not_eqb _ _ Hy). Qed.

Lemma float_zero_div_positive (p : float) :
  PrimFloat.ltb 0 p = true → PrimFloat.div 0 p = 0%float.
Proof.
  intros Hp. rewrite <- (SF2Prim_Prim2SF (PrimFloat.div 0 p)), div_spec.
  rewrite FloatAxioms.ltb_spec in Hp. unfold SFltb in Hp.
  let v := eval vm_compute in (Prim2SF 0) in change (Prim2SF 0) with v in *.
  destruct (Prim2SF p) as [[]|[]| |[] m e]; try discriminate; reflexivity.
Qed.

(** ** Parameter Expander *)

(** Closes [NoDup] of a list of distinct literals. *)
Ltac nodup_concrete :=
  repeat (apply NoDup_cons_2;
          [rewrite ?elem_of_cons, elem_of_nil; intuition discriminate|]);
  apply NoDup_nil_2.

Lemma expand_parameter_omap (combinations : list combo) (param : parameter) :
  expand_parameter combinations param =
  (value ← omap extract_value (p_values param);
   existing_combo ← combinations;
   [odict.set (p_name param) value existing_combo]).
Proof.
  unfold expand_parameter.
  induction (p_values param) as [|value_def values IH]; [done|].
  csimpl. rewrite IH.
  destruct (extract_value value_def) as [value|]; csimpl; [done|].
  replace (combinations ≫= λ _ : combo, []) with (@nil combo); [done|].
  clear. by induction combinations.
Qed.

Lemma expand_parameter_contents (combinations : list combo) (param : parameter) :
  contents (expand_parameter combinations param) =
  (value ← omap extract_value (p_values param);
   m ← contents combinations;
   [<[p_name param := value]> m]).
Proof.
  rewrite expand_parameter_omap. unfold contents.
  induction (omap extract_value (p_values param)) as [|value values IH]; [done|].
  csimpl. rewrite fmap_app, IH. f_equal.
  clear. induction combinations as [|c cs IH]; [done|].
  csimpl. by rewrite IH, to_gmap_set.
Qed.

Lemma omap_extract_supported (values : list value_def) :
  Forall (λ value_def, is_Some (extract_value value_def)) values →
  omap extract_value values = vd_value <$> values.
Proof.
  induction 1 as [|value_def values [v Hv] _ IH]; [done|].
  csimpl. rewrite Hv, IH. csimpl. f_equal.
  unfold extract_value in Hv. by repeat case_match; simplify_eq.
Qed.

Lemma omap_extract_unsupported (values : list value_def) :
  Forall (λ value_def, extract_value value_def = None) values →
  omap extract_value values = [].
Proof. induction 1 as [|value_def values Hv _ IH]; [done|]. csimpl. by rewrite Hv. Qed.

Lemma length_product_bind {A B C} (f : A → B → C) (xs : list A) (ys : list B) :
  length (x ← xs; y ← ys; [f x y]) = length xs * length ys.
Proof.
  induction xs as [|x xs IH]; [done|].
  csimpl. rewrite length_app, IH. f_equal.
  clear. induction ys as [|y ys IH]; [done|]. csimpl. by rewrite IH.
Qed.

Lemma expected_count_snoc (parameters : list parameter) (param : parameter) :
  expected_count (parameters ++ [param])
  = expected_count parameters * length (p_values param).
Proof.
  induction parameters as [|q qs IH]; simpl; [lia|].
  unfold expected_count in *. simpl. rewrite IH. lia.
Qed.

Lemma fold_expand_snoc (parameters : list parameter) (param : parameter)
    (combinations : list combo) :
  fold_left expand_parameter (parameters ++ [param]) combinations
  = expand_parameter (fold_left expand_parameter parameters combinations) param.
Proof. by rewrite fold_left_app. Qed.

Lemma fold_expand_length (parameters : list parameter) :
  all_supported parameters →
  length (fold_left expand_parameter parameters [[]]) = expected_count parameters.
Proof.
  induction parameters as [|param parameters IH] using rev_ind; intros Hs; [done|].
  apply Forall_app in Hs as [Hs [Hp _]%Forall_cons].
  rewrite fold_expand_snoc, expected_count_snoc, <- IH by done.
  rewrite expand_parameter_omap, omap_extract_supported by done.
  rewrite length_product_bind, length_fmap. lia.
Qed.

Lemma generate_fold (parameters : list parameter) :
  generate_parameter_combinations parameters
  = fold_left expand_parameter parameters [[]].
Proof. by destruct parameters. Qed.

Lemma fold_expand_lexicographic (parameters : list parameter) :
  fold_left expand_parameter parameters [[]]
  = lexicographic_combinations (reverse parameters).
Proof.
  induction parameters as [|param parameters IH] using rev_ind; [done|].
  by rewrite fold_expand_snoc, reverse_snoc, IH.
Qed.

Lemma fold_expand_nil (parameters : list parameter) :
  fold_left expand_parameter parameters [] = [].
Proof.
  induction parameters as [|param parameters IH]; [done|].
  simpl. rewrite expand_parameter_omap.
  replace (omap extract_value (p_values param) ≫= _) with (@nil combo); [done|].
  by induction (omap extract_value (p_values param)).
Qed.

Lemma product_bind_NoDup (name : string) (values : list json_value)
    (ms : list (gmap string json_value)) :
  NoDup values → NoDup ms → Forall (λ m, m !! name = None) ms →
  NoDup (value ← values; m ← ms; [<[name := value]> m]).
Proof.
  intros Hvalues Hms Hfresh. apply NoDup_bind; [| |done].
  - intros v1 v2 m' _ _ (m1 & ->%list_elem_of_singleton & _)%list_elem_of_bind
      (m2 & Heq%list_elem_of_singleton & _)%list_elem_of_bind.
    apply (f_equal (.!! name)) in Heq. rewrite !lookup_insert_eq in Heq. congruence.
  - intros v _. apply NoDup_bind; [| |done].
    + intros m1 m2 m' Hm1 Hm2 ->%list_elem_of_singleton Heq%list_elem_of_singleton.
      rewrite Forall_forall in Hfresh.
      rewrite <- (delete_insert_id m1 name v), <- (delete_insert_id m2 name v) by auto.
      by rewrite Heq.
    + intros m _. apply NoDup_singleton.
Qed.

Lemma fold_expand_NoDup (parameters : list parameter) (combinations : list combo) :
  all_supported parameters →
  NoDup (p_name <$> parameters) →
  Forall (λ param, NoDup (vd_value <$> p_values param)) parameters →
  NoDup (contents combinations) →
  Forall (λ m, ∀ param, param ∈ parameters → m !! p_name param = None)
         (contents combinations) →
  NoDup (contents (fold_left expand_parameter parameters combinations)).
Proof.
  intros Hs. revert combinations.
  induction Hs as [|param parameters Hp _ IH];
    intros combinations Hnames Hvalues Hcs Hfresh; [done|].
  apply NoDup_cons in Hnames as [Hname Hnames].
  apply Forall_cons in Hvalues as [Hvs Hvalues].
  simpl. apply IH; [done..| |].
  - rewrite expand_parameter_contents, omap_extract_supported by done.
    apply product_bind_NoDup; [done..|].
    eapply Forall_impl; [exact Hfresh|]. intros m Hm. apply Hm. by left.
  - rewrite expand_parameter_contents.
    apply Forall_bind, Forall_forall. intros value _.
    apply Forall_bind. eapply Forall_impl; [exact Hfresh|].
    intros m Hm. apply Forall_singleton. intros q Hq.
    rewrite lookup_insert_ne; [apply Hm; by right|].
    intros Heq. apply Hname. rewrite Heq. by apply list_elem_of_fmap_2.
Qed.

(** C3 (as the code has it): the combinations come in lexicographic order
    over the parameters taken in REVERSE declaration order, every
    parameter's values in declared order: the last declared parameter
    varies slowest and the first declared parameter varies fastest. *)
Theorem expander_order_last_parameter_slowest (parameters : list parameter) :
  generate_parameter_combinations parameters
  = lexicographic_combinations (reverse parameters).
Proof. rewrite generate_fold. apply fold_expand_lexicographic. Qed.

(** C3 as stated fails: for parameters [a] in [1; 2] and [b] in [x; y], all
    of supported types, the second combination emitted has [a = 2], whereas
    in lexicographic order with [a] slowest it has [a = 1]. *)
Lemma expander_order_first_parameter_slowest_fails :
  all_supported schema_ab
  ∧ contents (generate_parameter_combinations schema_ab)
    ≠ contents (lexicographic_combinations schema_ab).
Proof.
  split.
  - repeat constructor; by eexists.
  - intros Heq.
    apply (f_equal (λ cs, cs !! 1 ≫= (.!! "a"))) in Heq.
    vm_compute in Heq. discriminate.
Qed.

(** C6: when every declared value is of a supported type, the expander
    returns exactly the product of the sizes of the value lists; the
    combinations are pairwise different as dicts when the schema is a map
    from names to sets of values (no parameter name and, within a
    parameter, no value is declared twice); and a schema without parameters
    gives the single empty combination. *)
Theorem expander_count_and_uniqueness (parameters : list parameter) :
  all_supported parameters →
  length (generate_parameter_combinations parameters) = expected_count parameters
  ∧ (NoDup (p_name <$> parameters) →
     Forall (λ param, NoDup (vd_value <$> p_values param)) parameters →
     NoDup (contents (generate_parameter_combinations parameters)))
  ∧ generate_parameter_combinations [] = [[]].
Proof.
  intros Hs. rewrite generate_fold. split_and!; [by apply fold_expand_length| |done].
  intros Hnames Hvalues. apply fold_expand_NoDup; [done..| |].
  - apply NoDup_singleton.
  - apply Forall_singleton. intros param _. apply lookup_empty.
Qed.

Lemma expander_count_and_uniqueness_witness :
  length (generate_parameter_combinations schema_ab) = 4
  ∧ NoDup (contents (generate_parameter_combinations schema_ab)).
Proof.
  assert (Hs : all_supported schema_ab) by (repeat constructor; by eexists).
  destruct (expander_count_and_uniqueness schema_ab Hs) as (Hlen & Hnodup & _).
  split; [exact Hlen|]. apply Hnodup.
  - simpl. nodup_concrete.
  - repeat (apply Forall_cons_2; [simpl; nodup_concrete|]). apply Forall_nil_2.
Defined.

(** The distinctness asked of the schema matters: a value declared twice
    gives the same combination twice. *)
Example repeated_value_repeats_combination :
  generate_parameter_combinations
    [Param "n" [ValueDef "Integer" (JInt 1); ValueDef "Integer" (JInt 1)]]
  = [[("n", JInt 1)]; [("n", JInt 1)]].
Proof. reflexivity. Qed.

(** C10: a parameter without any usable value (its value list is empty, or
    all its values are of an unsupported type) empties the whole
    expansion, wherever it stands in the schema. *)
Theorem expander_unusable_parameter (parameters : list parameter) (param : parameter) :
  param ∈ parameters →
  Forall (λ value_def, extract_value value_def = None) (p_values param) →
  generate_parameter_combinations parameters = [].
Proof.
  intros (before & after & ->)%list_elem_of_split Hnone.
  rewrite generate_fold, fold_left_app. simpl.
  rewrite expand_parameter_omap, omap_extract_unsupported by done.
  apply fold_expand_nil.
Qed.

Lemma expander_unusable_parameter_witness :
  generate_parameter_combinations schema_unusable = []
  ∧ generate_parameter_combinations [Param "a" []] = [].
Proof.
  split.
  - apply (expander_unusable_parameter schema_unusable
             (Param "b" [ValueDef "Symbol" (JString "x")])).
    + apply list_elem_of_further, list_elem_of_here.
    + by repeat constructor.
  - apply (expander_unusable_parameter [Param "a" []] (Param "a" [])).
    + apply list_elem_of_here.
    + constructor.
Defined.
(** ** Exact operations on binary64 floats *)

(** Dividing a finite float by [1.0] gives it back. *)
Lemma SFdiv_one (s : bool) (m : positive) (e : Z) :
  bounded prec emax m e = true →
  SFdiv prec emax (S754_finite s m e) (S754_finite false 4503599627370496 (-52))
  = S754_finite s m e.
Proof.
  unfold bounded, canonical_mantissa. intros [Hcan Hmax]%andb_prop.
  apply Z.eqb_eq in Hcan. apply Z.leb_le in Hmax.
  assert (Hfexp : fexp prec emax (Zdigits2 (Z.pos m) + e) = e) by exact Hcan.
  unfold SFdiv, SFdiv_core_binary.
  change (Zdigits2 (Z.pos 4503599627370496)) with 53%Z.
  set (e' := Z.min _ _).
  assert (He' : e' = e ∨ e' = (e - 1)%Z).
  { subst e'. revert Hcan. unfold fexp, emin, prec, emax. simpl Zdigits2. lia. }
  assert (Hdiv : ∀ k, (0 < k)%Z →
            Z.div_eucl (Z.pos m * k * 4503599627370496) 4503599627370496
            = (Z.pos m * k, 0)%Z).
  { intros k Hk.
    pose proof (Z.div_mul (Z.pos m * k) 4503599627370496 ltac:(lia)) as Hq.
    pose proof (Z.mod_mul (Z.pos m * k) 4503599627370496 ltac:(lia)) as Hr.
    unfold Z.div, Z.modulo in Hq, Hr.
    destruct (Z.div_eucl _ _) as [q r]. simpl in *. by subst. }
  destruct He' as [-> | ->].
  - (* the quotient has the exponent of the dividend *)
    replace (e - -52 - e)%Z with 52%Z by lia.
    rewrite Z.shiftl_mul_pow2 by lia.
    change (2 ^ 52)%Z with (1 * 4503599627370496)%Z.
    rewrite Z.mul_assoc, Hdiv by lia. rewrite Z.mul_1_r.
    unfold binary_round_aux, shr_fexp.
    change (new_location 4503599627370496 0) with loc_Exact.
    cbn [shr_record_of_loc]. rewrite Hfexp, Z.sub_diag.
    cbn [shr shr_m loc_of_shr_record round_nearest_even].
    rewrite Hfexp, Z.sub_diag. cbn [shr shr_m].
    rewrite (proj2 (Z.leb_le _ _) Hmax). by destruct s.
  - (* the quotient is computed one bit wider and shifted back *)
    replace (e - -52 - (e - 1))%Z with 53%Z by lia.
    rewrite Z.shiftl_mul_pow2 by lia.
    change (2 ^ 53)%Z with (2 * 4503599627370496)%Z.
    rewrite Z.mul_assoc, Hdiv by lia.
    change (new_location 4503599627370496 0) with loc_Exact.
    replace (Z.pos m * 2)%Z with (Z.pos m~0) by lia.
    unfold binary_round_aux, shr_fexp.
    replace (fexp prec emax (Zdigits2 (Z.pos m~0) + (e - 1)) - (e - 1))%Z with 1%Z.
    2:{ rewrite <- Hfexp at 2. simpl Zdigits2 in *.
        replace (Z.pos (Pos.succ (digits2_pos m)) + (e - 1))%Z
          with (Z.pos (digits2_pos m) + e)%Z by lia. lia. }
    cbn [shr_record_of_loc shr SpecFloat.iter_pos shr_1 shr_m loc_of_shr_record
         round_nearest_even].
    replace (e - 1 + 1)%Z with e by lia.
    cbn [orb round_nearest_even]. rewrite Hfexp, Z.sub_diag. cbn [shr shr_m].
    rewrite (proj2 (Z.leb_le _ _) Hmax). by destruct s.
Qed.

(** A finite float minus itself is [0.0]. *)
Lemma SFsub_diag (s : bool) (m : positive) (e : Z) :
  SFsub prec emax (S754_finite s m e) (S754_finite s m e) = S754_zero false.
Proof.
  unfold SFsub. cbv zeta. rewrite Z.min_id. unfold shl_align.
  rewrite (Z.sub_diag e). cbn [fst]. by rewrite Z.sub_diag.
Qed.

(** The deviation of a single sample [x] from its own mean,
    [x - (0 + x) / 1], is a zero or a NaN. *)
Lemma single_sample_deviation (x : float) :
  let mean := PrimFloat.div (PrimFloat.add 0 x) 1 in
  Prim2SF (PrimFloat.sub x mean) = S754_nan
  ∨ ∃ s, Prim2SF (PrimFloat.sub x mean) = S754_zero s.
Proof.
  intros mean. subst mean. rewrite sub_spec, div_spec, add_spec.
  let v := eval vm_compute in (Prim2SF 0) in change (Prim2SF 0) with v.
  let v := eval vm_compute in (Prim2SF 1) in change (Prim2SF 1) with v.
  pose proof (Prim2SF_valid x) as Hvalid.
  destruct (Prim2SF x) as [[]|[]| |s m e].
  - right. by exists true.
  - right. by exists false.
  - by left.
  - by left.
  - by left.
  - right. exists false.
    change (SF64add (S754_zero false) (S754_finite s m e)) with (S754_finite s m e).
    unfold SF64div. rewrite SFdiv_one by exact Hvalid. apply SFsub_diag.
Qed.

(** ** Powers *)

(** The square of a zero or of a NaN needs no call of [pow]. *)
Lemma float_pow_2_zero_or_nan (py : python) (iv : float) :
  Prim2SF iv = S754_nan ∨ (∃ s, Prim2SF iv = S754_zero s) →
  ∃ square, float_pow_2 py iv = Ok square.
Proof.
  intros Hiv. unfold float_pow_2, PrimFloat.is_nan, PrimFloat.is_infinity.
  rewrite !FloatAxioms.eqb_spec, abs_spec.
  let v := eval vm_compute in (Prim2SF 0) in change (Prim2SF 0) with v.
  let v := eval vm_compute in (Prim2SF infinity) in change (Prim2SF infinity) with v.
  destruct Hiv as [-> | [s ->]]; [by eexists|]. destruct s; by eexists.
Qed.

(** [**] raises nothing but [OverflowError]. *)
Lemma float_pow_2_raises (py : python) (iv : float) (e : exception) :
  float_pow_2 py iv = Raise e → e = OverflowError.
Proof. unfold float_pow_2. repeat case_match; congruence. Qed.

Lemma float_pow_half_raises (py : python) (iv : float) (e : exception) :
  float_pow_half py iv = Raise e → e = OverflowError.
Proof. unfold float_pow_half. repeat case_match; congruence. Qed.

Lemma sum_of_squares_raises (py : python) (mean : float) (xs : list float)
    (total : float) (e : exception) :
  for_each (λ total x, square ← float_pow_2 py (PrimFloat.sub x mean);
                       Ok (PrimFloat.add total square)) xs total = Raise e →
  e = OverflowError.
Proof.
  revert total. induction xs as [|x xs IH]; intros total; [done|].
  simpl. destruct (float_pow_2 py (PrimFloat.sub x mean)) as [square|e'] eqn:Hsq; csimpl.
  - apply IH.
  - intros [= <-]. by apply float_pow_2_raises in Hsq.
Qed.

Lemma sum_sq_dev_raises (py : python) (mean : float) (xs : list float) (e : exception) :
  sum_sq_dev py mean xs = Raise e → e = OverflowError.
Proof. apply sum_of_squares_raises. Qed.

(** ** Statistics Engine *)

Lemma exn_bind_Ok {A B} (m : exn A) (k : A → exn B) (b : B) :
  m ≫= k = Ok b → ∃ a, m = Ok a ∧ k a = Ok b.
Proof. destruct m as [a|e]; [by exists a|done]. Qed.

(** Inverts every chain of binds that is known to return. *)
Ltac exn_inv :=
  repeat match goal with
         | H : (_ ≫= _) = Ok _ |- _ => apply exn_bind_Ok in H as (? & ? & H)
         end.

Lemma truediv_int_nonzero (x : float) (n : Z) :
  n ≠ 0%Z →
  truediv_int x n = Ok (PrimFloat.div x (PrimFloat.of_uint63 (Uint63.of_Z n))).
Proof. intros Hn. unfold truediv_int. by rewrite (proj2 (Z.eqb_neq n 0) Hn). Qed.

Lemma mean_of_nonempty (data : list float) :
  data ≠ [] → ∃ mean, mean_of data = Ok mean.
Proof.
  intros Hne. unfold mean_of. rewrite truediv_int_nonzero; [by eexists|].
  destruct data; [done|]. simpl. lia.
Qed.

(** The guarded divisions of the comparison never raise. *)
Lemma guarded_truediv (x y fallback : float) :
  ∃ quotient,
    (if PrimFloat.ltb 0 y then truediv x y else Ok fallback) = Ok quotient.
Proof.
  destruct (PrimFloat.ltb 0 y) eqn:Hy; [|by eexists].
  rewrite (truediv_positive _ _ Hy). by eexists.
Qed.

(** The comparison of two non-empty sample sets from its means on: the
    two sums of squares, the pooled variance, its root, and the dict. *)
Lemma compare_implementations_unfold (py : python) (data_a data_b : list float)
    (impl_a impl_b test_key : string) (mean_a mean_b : float) :
  mean_of data_a = Ok mean_a → mean_of data_b = Ok mean_b →
  compare_implementations py data_a data_b impl_a impl_b test_key
  = (squares_a ← sum_sq_dev py mean_a data_a;
     squares_b ← sum_sq_dev py mean_b data_b;
     pooled_var ← truediv_int (PrimFloat.add squares_a squares_b)
                     (Z.of_nat (length data_a) + Z.of_nat (length data_b) - 2);
     pooled_std ← float_pow_half py pooled_var;
     pooled_std ← (match pooled_std with
                   | Real pooled_std => Ok pooled_std
                   | Complex => Raise TypeError
                   end);
     effect_size ← (if PrimFloat.ltb 0 pooled_std
                    then truediv (PrimFloat.sub mean_a mean_b) pooled_std
                    else Ok 0%float);
     performance_ratio ← (if PrimFloat.ltb 0 mean_a then truediv mean_b mean_a
                          else Ok 1%float);
     Ok [ ("impl_a", JString impl_a); ("impl_b", JString impl_b);
          ("test", JString test_key);
          ("mean_a", JFloat mean_a); ("mean_b", JFloat mean_b);
          ("effect_size", JFloat effect_size);
          ("significant", JBool (PrimFloat.ltb 0.5 (PrimFloat.abs effect_size)));
          ("performance_ratio", JFloat performance_ratio);
          ("winner", JString (if PrimFloat.ltb mean_a mean_b then impl_a else impl_b)) ]).
Proof.
  intros Ha Hb. unfold mean_of in *.
  destruct data_a as [|a data_a]; [done|]. destruct data_b as [|b data_b]; [done|].
  unfold compare_implementations. by rewrite Ha, Hb.
Qed.

(** Whatever comparison of two non-empty sample sets is returned reports
    the two means and the winner by [mean_a < mean_b]. *)
Lemma compare_implementations_Ok (py : python) (data_a data_b : list float)
    (impl_a impl_b test_key : string) (mean_a mean_b : float)
    (comparison : odict json_value) :
  mean_of data_a = Ok mean_a → mean_of data_b = Ok mean_b →
  compare_implementations py data_a data_b impl_a impl_b test_key = Ok comparison →
  ∃ effect_size performance_ratio,
    comparison
    = [ ("impl_a", JString impl_a); ("impl_b", JString impl_b);
        ("test", JString test_key);
        ("mean_a", JFloat mean_a); ("mean_b", JFloat mean_b);
        ("effect_size", JFloat effect_size);
        ("significant", JBool (PrimFloat.ltb 0.5 (PrimFloat.abs effect_size)));
        ("performance_ratio", JFloat performance_ratio);
        ("winner", JString (if PrimFloat.ltb mean_a mean_b then impl_a else impl_b)) ].
Proof.
  intros Ha Hb. rewrite (compare_implementations_unfold _ _ _ _ _ _ _ _ Ha Hb).
  intros Hcmp. exn_inv. simplify_eq. by eexists _, _.
Qed.

(** The comparison is returned when the squares and the root are. *)
Lemma compare_implementations_returns (py : python) (data_a data_b : list float)
    (impl_a impl_b test_key : string)
    (mean_a mean_b squares_a squares_b pooled_std : float) :
  mean_of data_a = Ok mean_a → mean_of data_b = Ok mean_b →
  2 < length data_a + length data_b →
  sum_sq_dev py mean_a data_a = Ok squares_a →
  sum_sq_dev py mean_b data_b = Ok squares_b →
  float_pow_half py (pooled_variance squares_a squares_b (length data_a) (length data_b))
  = Ok (Real pooled_std) →
  ∃ comparison,
    compare_implementations py data_a data_b impl_a impl_b test_key = Ok comparison.
Proof.
  intros Ha Hb Hlen Hsa Hsb Hroot.
  rewrite (compare_implementations_unfold _ _ _ _ _ _ _ _ Ha Hb), Hsa, Hsb. csimpl.
  rewrite truediv_int_nonzero by lia. csimpl.
  unfold pooled_variance in Hroot. rewrite Hroot. csimpl.
  destruct (guarded_truediv (PrimFloat.sub mean_a mean_b) pooled_std 0) as [effect ->].
  destruct (guarded_truediv mean_b mean_a 1) as [ratio ->].
  csimpl. by eexists.
Qed.

(** It raises for two single samples (the division by zero), for a square
    or a root that overflows, and for a complex root; for nothing else. *)
Lemma compare_implementations_raises (py : python) (data_a data_b : list float)
    (impl_a impl_b test_key : string) (e : exception) :
  data_a ≠ [] → data_b ≠ [] →
  compare_implementations py data_a data_b impl_a impl_b test_key = Raise e →
  (e = ZeroDivisionError ∧ length data_a + length data_b = 2)
  ∨ e = OverflowError ∨ e = TypeError.
Proof.
  intros [mean_a Ha]%mean_of_nonempty [mean_b Hb]%mean_of_nonempty.
  rewrite (compare_implementations_unfold _ _ _ _ _ _ _ _ Ha Hb).
  destruct (sum_sq_dev py mean_a data_a) as [squares_a|e'] eqn:Hsa; csimpl;
    [|intros [= <-]; right; left; by apply sum_sq_dev_raises in Hsa].
  destruct (sum_sq_dev py mean_b data_b) as [squares_b|e'] eqn:Hsb; csimpl;
    [|intros [= <-]; right; left; by apply sum_sq_dev_raises in Hsb].
  unfold truediv_int.
  destruct (Z.eqb_spec (Z.of_nat (length data_a) + Z.of_nat (length data_b) - 2) 0)
    as [Hzero|Hnonzero]; csimpl; [intros [= <-]; left; split; [done|lia]|].
  destruct (float_pow_half py _) as [[pooled_std|]|e'] eqn:Hroot; csimpl;
    [|intros [= <-]; by right; right
     |intros [= <-]; right; left; by apply float_pow_half_raises in Hroot].
  destruct (guarded_truediv (PrimFloat.sub mean_a mean_b) pooled_std 0) as [effect ->].
  destruct (guarded_truediv mean_b mean_a 1) as [ratio ->].
  csimpl. done.
Qed.

(** C1 (as the code has it): every comparison of two non-empty sample sets
    that the code returns reports both means and declares implementation A
    the winner when A's mean is strictly lower than B's and implementation
    B in every other case: when B's mean is lower, when the means are
    equal, and when they cannot be ordered.  The comparison is returned
    whenever the sets are not both single samples, no square of a deviation
    overflows and the root of the pooled variance is a float; it raises for
    two single samples, on an overflow of [**] and for a complex root, and
    for nothing else. *)
Theorem winner_is_a_only_when_strictly_lower (py : python) (data_a data_b : list float)
    (impl_a impl_b test_key : string) :
  data_a ≠ [] → data_b ≠ [] →
  ∃ mean_a mean_b,
    mean_of data_a = Ok mean_a ∧ mean_of data_b = Ok mean_b
    ∧ (∀ comparison,
         compare_implementations py data_a data_b impl_a impl_b test_key = Ok comparison →
         odict.get "mean_a" comparison = Some (JFloat mean_a)
         ∧ odict.get "mean_b" comparison = Some (JFloat mean_b)
         ∧ odict.get "winner" comparison
           = Some (JString (if PrimFloat.ltb mean_a mean_b then impl_a else impl_b))
         ∧ (PrimFloat.eqb mean_a mean_b = true →
            odict.get "winner" comparison = Some (JString impl_b)))
    ∧ (∀ squares_a squares_b pooled_std,
         2 < length data_a + length data_b →
         sum_sq_dev py mean_a data_a = Ok squares_a →
         sum_sq_dev py mean_b data_b = Ok squares_b →
         float_pow_half py
           (pooled_variance squares_a squares_b (length data_a) (length data_b))
         = Ok (Real pooled_std) →
         ∃ comparison,
           compare_implementations py data_a data_b impl_a impl_b test_key
           = Ok comparison)
    ∧ (∀ e,
         compare_implementations py data_a data_b impl_a impl_b test_key = Raise e →
         (e = ZeroDivisionError ∧ length data_a + length data_b = 2)
         ∨ e = OverflowError ∨ e = TypeError).
Proof.
  intros Hne_a Hne_b.
  destruct (mean_of_nonempty data_a Hne_a) as [mean_a Ha].
  destruct (mean_of_nonempty data_b Hne_b) as [mean_b Hb].
  exists mean_a, mean_b. split_and!; [done|done|..].
  - intros comparison Hcmp.
    destruct (compare_implementations_Ok _ _ _ _ _ _ _ _ _ Ha Hb Hcmp)
      as (effect_size & ratio & ->).
    split_and!; [done..|].
    intros [Hlt _]%float_eqb_not_ltb. simpl. by rewrite Hlt.
  - intros squares_a squares_b pooled_std Hlen Hsa Hsb Hroot.
    by eapply compare_implementations_returns.
  - intros e. by apply compare_implementations_raises.
Qed.

Lemma winner_is_a_only_when_strictly_lower_witness :
  ∃ comparison,
    compare_implementations reference_python samples_fast samples_slow "A" "B" "t"
    = Ok comparison
    ∧ odict.get "winner" comparison = Some (JString "A").
Proof.
  destruct (winner_is_a_only_when_strictly_lower reference_python
              samples_fast samples_slow "A" "B" "t")
    as (mean_a & mean_b & Ha & Hb & Hwinner & Hreturns & _); [done|done|].
  vm_compute in Ha, Hb. simplify_eq.
  edestruct Hreturns as [comparison Hcmp];
    [simpl; lia|vm_compute; reflexivity..|].
  exists comparison. split; [exact Hcmp|].
  by destruct (Hwinner comparison Hcmp) as (_ & _ & -> & _).
Defined.

(** C1 as stated fails: the samples [1; 3] of A and [2; 2] of B have the
    same mean, [2], and the declared winner is B, not A, on every
    interpreter (no call of [pow] is made). *)
Lemma tie_winner_is_not_a :
  mean_of samples_1_3 = Ok 2%float ∧ mean_of samples_2_2 = Ok 2%float
  ∧ ∀ py, ∃ comparison,
      compare_implementations py samples_1_3 samples_2_2 "A" "B" "t" = Ok comparison
      ∧ odict.get "winner" comparison = Some (JString "B")
      ∧ odict.get "winner" comparison ≠ Some (JString "A").
Proof.
  split_and!; [by vm_compute..|]. intros py.
  eexists. split_and!; [by vm_compute|by vm_compute|]. vm_compute. discriminate.
Qed.

(** Means that cannot be ordered give the winner B as well. *)
Example unordered_means_winner_is_b :
  ∃ comparison,
    compare_implementations reference_python [nan; 1%float] [1%float; 2%float]
      "A" "B" "t" = Ok comparison
    ∧ odict.get "winner" comparison = Some (JString "B").
Proof. eexists. split; by vm_compute. Qed.

(** A square that overflows ends the comparison with [OverflowError]:
    the deviations of [2^700; 3 * 2^700] from their mean are [-2^700] and
    [2^700]. *)
Example compare_overflow :
  compare_implementations reference_python [0x1p700%float; 0x3p700%float]
    [1%float; 2%float] "A" "B" "t" = Raise OverflowError.
Proof. by vm_compute. Qed.

(** C9 fails on the code: comparing a single sample with itself divides the
    pooled sum of squares by [1 + 1 - 2 = 0]; the call raises
    [ZeroDivisionError] and yields no effect size at all. *)
Theorem compare_single_sample_with_itself_raises (py : python) (x : float)
    (impl_a impl_b test_key : string) :
  compare_implementations py [x] [x] impl_a impl_b test_key = Raise ZeroDivisionError.
Proof.
  unfold compare_implementations.
  (* both means are [x / 1], and the deviation of [x] from it is squared
     without a call of [pow]; the next division is by [1 + 1 - 2] *)
  rewrite !truediv_int_nonzero by done. csimpl.
  unfold sum_sq_dev, py_sum. simpl.
  destruct (float_pow_2_zero_or_nan py _ (single_sample_deviation x)) as [square ->].
  csimpl. unfold truediv_int. reflexivity.
Qed.

(** With two or more samples the code does what C9 says whenever it
    returns: a sample set whose mean [m] is finite (so that [m - m] is [0])
    compared with itself has effect size [0] and is not significant. *)
Lemma compare_with_itself_two_or_more (py : python) (data : list float)
    (impl_a impl_b test_key : string) (mean : float) (comparison : odict json_value) :
  mean_of data = Ok mean → PrimFloat.sub mean mean = 0%float →
  compare_implementations py data data impl_a impl_b test_key = Ok comparison →
  odict.get "effect_size" comparison = Some (JFloat 0)
  ∧ odict.get "significant" comparison = Some (JBool false).
Proof.
  intros Hmean Hzero.
  rewrite (compare_implementations_unfold _ _ _ _ _ _ _ _ Hmean Hmean).
  intros Hcmp. exn_inv. simplify_eq. rewrite Hzero in *.
  match goal with
  | H : (if PrimFloat.ltb 0 ?p then truediv 0 ?p else Ok 0%float) = Ok ?effect |- _ =>
      assert (effect = 0%float) as ->;
        [destruct (PrimFloat.ltb 0 p) eqn:Hp;
         [rewrite (truediv_positive _ _ Hp), (float_zero_div_positive _ Hp) in H|];
         congruence|]
  end.
  by split.
Qed.

(** For instance on [0.25; 0.5; 0.75]. *)
Example compare_samples_fast_with_itself :
  ∃ comparison,
    compare_implementations reference_python samples_fast samples_fast "A" "B" "t"
    = Ok comparison
    ∧ odict.get "effect_size" comparison = Some (JFloat 0)
    ∧ odict.get "significant" comparison = Some (JBool false).
Proof. eexists. split_and!; by vm_compute. Qed.

(** The specification's end-to-end example: means in the ratio 1 to 2 make
    the faster implementation the winner with performance ratio 2. *)
Example compare_fast_slow :
  ∃ comparison,
    compare_implementations reference_python samples_fast samples_slow "A" "B" "t"
    = Ok comparison
    ∧ odict.get "winner" comparison = Some (JString "A")
    ∧ odict.get "performance_ratio" comparison = Some (JFloat 2).
Proof. eexists. split_and!; by vm_compute. Qed.

(** ** Descriptive statistics *)

Lemma insert_sorted_rearranges (x : float) (xs : list float) :
  insert_sorted x xs ≡ₚ x :: xs.
Proof.
  induction xs as [|y xs IH]; simpl; [done|].
  destruct (PrimFloat.ltb x y); [done|]. by rewrite IH, Permutation_swap.
Qed.

(** The interpreter of the examples sorts by rearranging. *)
Lemma insertion_sort_rearranges : sorted_rearranges reference_python.
Proof.
  intros xs. simpl. unfold insertion_sort.
  rewrite <- (app_nil_r xs) at 2. generalize (@nil float).
  induction xs as [|x xs IH]; intros acc; simpl; [done|].
  by rewrite IH, insert_sorted_rearranges, Permutation_middle.
Qed.

(** A single sample has itself for every order statistic, and its
    standard deviation needs no call of [pow]. *)
Lemma descriptive_stats_single_sample (py : python) (x mean : float) :
  sorted_rearranges py → mean_of [x] = Ok mean →
  calculate_descriptive_stats py [x]
  = Ok [ ("count", NInt 1); ("mean", NFloat mean); ("median", NFloat x);
         ("std_dev", NFloat 0); ("min", NFloat x); ("max", NFloat x);
         ("q25", NFloat x); ("q75", NFloat x) ].
Proof.
  intros Hsorted Hmean. unfold calculate_descriptive_stats.
  rewrite (proj1 (Permutation_singleton_r _ _) (Hsorted [x])).
  unfold mean_of in Hmean. simpl length in *. rewrite Hmean. reflexivity.
Qed.

(** Below four samples [values[n // 4]] is the first and
    [values[3 * n // 4]] the last element of the sorted list. *)
Lemma descriptive_stats_small_sample_Ok (py : python) (values : list float)
    (stats : odict number) :
  sorted_rearranges py → values ≠ [] → length values < 4 →
  calculate_descriptive_stats py values = Ok stats →
  ∃ q25 q75,
    odict.get "q25" stats = Some (NFloat q25)
    ∧ odict.get "q75" stats = Some (NFloat q75)
    ∧ odict.get "min" stats = Some (NFloat q25)
    ∧ odict.get "max" stats = Some (NFloat q75).
Proof.
  intros Hsorted Hne Hlen. unfold calculate_descriptive_stats.
  pose proof (Permutation_length (Hsorted values)) as Hsame.
  destruct values as [|v values]; [done|]. clear Hne.
  destruct (sorted py (v :: values)) as [|a [|b [|c [|d sorted_values]]]];
    simpl in Hsame, Hlen; try lia; clear Hsame Hlen;
    intros Hstats; exn_inv;
    repeat match goal with
           | H : py_index _ _ = Ok _ |- _ => vm_compute in H; injection H as <-
           end;
    simplify_eq; by eexists _, _.
Qed.

(** Below four samples nothing but [**] can raise. *)
Lemma descriptive_stats_small_sample_raises (py : python) (values : list float)
    (e : exception) :
  sorted_rearranges py → values ≠ [] → length values < 4 →
  calculate_descriptive_stats py values = Raise e → e = OverflowError.
Proof.
  intros Hsorted Hne Hlen. unfold calculate_descriptive_stats.
  pose proof (Permutation_length (Hsorted values)) as Hsame.
  destruct values as [|v values]; [done|]. clear Hne.
  destruct (sorted py (v :: values)) as [|a [|b [|c [|d sorted_values]]]];
    simpl in Hsame, Hlen; try lia; clear Hsame Hlen.
  - rewrite truediv_int_nonzero by done. csimpl. done.
  - rewrite truediv_int_nonzero by done. csimpl.
    destruct (sum_sq_dev py _ _) as [total|e'] eqn:Htotal; csimpl;
      [|intros [= <-]; by apply sum_sq_dev_raises in Htotal].
    destruct (float_pow_half py _) as [std_dev|e'] eqn:Hroot; csimpl;
      [|intros [= <-]; by apply float_pow_half_raises in Hroot].
    done.
  - rewrite truediv_int_nonzero by done. csimpl.
    destruct (sum_sq_dev py _ _) as [total|e'] eqn:Htotal; csimpl;
      [|intros [= <-]; by apply sum_sq_dev_raises in Htotal].
    destruct (float_pow_half py _) as [std_dev|e'] eqn:Hroot; csimpl;
      [|intros [= <-]; by apply float_pow_half_raises in Hroot].
    done.
Qed.

(** C5 fails on [BenchmarkRunner.calculate_descriptive_stats]: for one, two
    or three samples the statistics it returns still carry the keys [q25]
    and [q75], which hold the smallest and the largest sample; it returns
    them for every single sample, and for two or three samples unless [**]
    overflows, the only exception it can raise there. *)
Theorem descriptive_stats_small_sample_has_quartiles (py : python) (values : list float) :
  sorted_rearranges py → values ≠ [] → length values < 4 →
  (∀ stats,
     calculate_descriptive_stats py values = Ok stats →
     ∃ q25 q75,
       odict.get "q25" stats = Some (NFloat q25)
       ∧ odict.get "q75" stats = Some (NFloat q75)
       ∧ odict.get "min" stats = Some (NFloat q25)
       ∧ odict.get "max" stats = Some (NFloat q75))
  ∧ (∀ e, calculate_descriptive_stats py values = Raise e → e = OverflowError)
  ∧ (∀ x, values = [x] →
     ∃ mean,
       calculate_descriptive_stats py values
       = Ok [ ("count", NInt 1); ("mean", NFloat mean); ("median", NFloat x);
              ("std_dev", NFloat 0); ("min", NFloat x); ("max", NFloat x);
              ("q25", NFloat x); ("q75", NFloat x) ]).
Proof.
  intros Hsorted Hne Hlen. split_and!.
  - intros stats. by apply descriptive_stats_small_sample_Ok.
  - intros e. by apply descriptive_stats_small_sample_raises.
  - intros x ->. destruct (mean_of_nonempty [x] Hne) as [mean Hmean].
    exists mean. by apply descriptive_stats_single_sample.
Qed.

Lemma descriptive_stats_small_sample_has_quartiles_witness :
  ∃ stats,
    calculate_descriptive_stats reference_python [0.5%float] = Ok stats
    ∧ odict.get "q25" stats = Some (NFloat 0.5)
    ∧ odict.get "q75" stats = Some (NFloat 0.5).
Proof.
  destruct (descriptive_stats_small_sample_has_quartiles reference_python [0.5%float])
    as (_ & _ & Hsingle); [apply insertion_sort_rearranges|done|simpl; lia|].
  destruct (Hsingle 0.5%float eq_refl) as [mean ->]. by eexists.
Defined.

(** The failing input on every interpreter: one timing of half a second
    comes back with both quartiles. *)
Example descriptive_stats_of_one_timing (py : python) :
  sorted_rearranges py →
  calculate_descriptive_stats py [0.5%float]
  = Ok [ ("count", NInt 1); ("mean", NFloat 0.5); ("median", NFloat 0.5);
         ("std_dev", NFloat 0); ("min", NFloat 0.5); ("max", NFloat 0.5);
         ("q25", NFloat 0.5); ("q75", NFloat 0.5) ].
Proof. intros Hsorted. by apply descriptive_stats_single_sample. Qed.

(** Two samples whose deviations overflow when squared: the statistics
    raise, and no quartile is returned at all. *)
Example descriptive_stats_overflow :
  calculate_descriptive_stats reference_python [0x1p700%float; 0%float]
  = Raise OverflowError.
Proof. by vm_compute. Qed.

(** Three samples on the interpreter of the examples. *)
Example descriptive_stats_of_three_timings :
  calculate_descriptive_stats reference_python samples_fast
  = Ok [ ("count", NInt 3); ("mean", NFloat 0.5); ("median", NFloat 0.5);
         ("std_dev", NFloat 0.25); ("min", NFloat 0.25); ("max", NFloat 0.75);
         ("q25", NFloat 0.25); ("q75", NFloat 0.75) ].
Proof. by vm_compute. Qed.

(** The sibling routine [BenchmarkProcessor.generate_statistics] does what
    the specification says: below four samples its statistics carry no
    quartile or percentile key. *)
Lemma processor_small_sample_omits_percentiles
    (mean median stdev : list float → exn float)
    (quantiles : list float → Z → exn (list float))
    (impl_results : list raw_result) (stats : odict json_value) (k : string) :
  impl_statistics mean median stdev quantiles impl_results = Ok (Some stats) →
  length (omap duration impl_results) < 4 →
  k ∈ percentile_keys →
  odict.get k stats = None.
Proof.
  intros Hstats Hlen Hk. unfold impl_statistics in Hstats.
  unfold percentile_keys in Hk.
  destruct impl_results as [|r rs]; [done|].
  destruct (omap duration (r :: rs)) as [|d ds] eqn:Hd; [done|].
  rewrite (proj2 (Z.leb_gt 4 _)), (proj2 (Z.leb_gt 10 _)) in Hstats by lia.
  destruct (omap user_time (r :: rs)), (omap max_memory_kb (r :: rs));
    exn_inv; simplify_eq;
    repeat (apply elem_of_cons in Hk as [->|Hk]; [reflexivity|]);
    by apply elem_of_nil in Hk.
Qed.

(** ** Regression Detector *)

(** *** Matching of baseline entries *)

Lemma py_eq_equal_values (a b : json_value) :
  equal_values a b → py_eq a b = true.
Proof.
  destruct 1; simpl; [apply Z.eqb_refl|done|apply String.eqb_refl|by destruct b].
Qed.

Lemma py_eq_distinct_values (a b : json_value) :
  distinct_values a b → py_eq a b = false.
Proof.
  destruct 1 as [x y Hne|x y Hne|s t Hne|a b Hne]; simpl.
  - by apply Z.eqb_neq.
  - done.
  - by apply String.eqb_neq.
  - by destruct a, b.
Qed.

Lemma py_dict_eq_same_combination (a b : combo) :
  same_combination a b → py_dict_eq a b = true.
Proof.
  intros [Hlen Hvalues]. unfold py_dict_eq.
  rewrite Hlen, Nat.eqb_refl. simpl. clear Hlen.
  induction a as [|[k x] a IH]; [done|]. simpl.
  destruct (Hvalues k x) as (y & -> & Hxy); [by left|].
  rewrite (py_eq_equal_values _ _ Hxy). simpl.
  apply IH. intros k' x' Hin. apply Hvalues. by right.
Qed.

Lemma py_dict_eq_different_combination (a b : combo) :
  different_combination a b → py_dict_eq a b = false.
Proof.
  intros [Hlen|(k & x & Hin & Hk)]; unfold py_dict_eq.
  - by rewrite (proj2 (Nat.eqb_neq _ _) Hlen).
  - apply andb_false_intro2.
    induction a as [|[k' x'] a IH]; [by apply elem_of_nil in Hin|]. simpl.
    apply elem_of_cons in Hin as [[= <- <-]|Hin].
    + destruct (odict.get k b) as [y|]; [|done].
      by rewrite (py_eq_distinct_values _ _ Hk).
    + rewrite (IH Hin). apply andb_false_r.
Qed.

(** The search finds the first baseline entry with the key of the result:
    entries with another key before it are passed over, whatever follows
    it is not looked at. *)
Lemma find_baseline_test_first_match (before after : list execution_result)
    (baseline_test result : execution_result) :
  Forall (λ baseline_result, other_key baseline_result result) before →
  same_key baseline_test result →
  find_baseline_test (before ++ baseline_test :: after) result = Some baseline_test.
Proof.
  intros Hbefore (Hname & Hcategory & Hparameters). unfold find_baseline_test.
  induction Hbefore as [|baseline_result before Hother _ IH]; simpl.
  - rewrite Hname, Hcategory, !String.eqb_refl.
    by rewrite (py_dict_eq_same_combination _ _ Hparameters).
  - rewrite IH. destruct Hother as [Hne|[Hne|Hne]].
    + by rewrite (proj2 (String.eqb_neq _ _) Hne).
    + rewrite (proj2 (String.eqb_neq _ _) Hne). by rewrite andb_false_r.
    + rewrite (py_dict_eq_different_combination _ _ Hne). by rewrite andb_false_r.
Qed.

(** A baseline entry with other parameters is not taken for the match. *)
Example baseline_entry_with_other_parameters :
  find_baseline_test
    [result_of "chez" "fib" "recursion" 20 50; fib_result 100] (fib_result 90)
  = Some (fib_result 100).
Proof. reflexivity. Qed.

(** *** The records *)

(** What the comparison with a baseline entry adds does not depend on the
    records collected so far, and it never raises. *)
Lemma compare_to_baseline_appends (impl_id : string)
    (result baseline_test : execution_result) :
  ∃ added,
    ∀ regressions improvements,
      compare_to_baseline impl_id result baseline_test (regressions, improvements)
      = Ok (regressions ++ added.1, improvements ++ added.2).
Proof.
  unfold compare_to_baseline.
  destruct (PrimFloat.ltb 0 (default 0%float (ops_per_second baseline_test))) eqn:Hpos.
  - unfold change_percent. rewrite (truediv_positive _ _ Hpos). csimpl.
    match goal with |- context [PrimFloat.ltb ?c (-5)] => set (change := c) end.
    destruct (PrimFloat.ltb change (-5)); [|destruct (PrimFloat.ltb 5 change)].
    + eexists (_, []). intros regressions improvements. simpl.
      by rewrite (app_nil_r improvements).
    + eexists ([], _). intros regressions improvements. simpl.
      by rewrite (app_nil_r regressions).
    + exists ([], []). intros regressions improvements. simpl.
      by rewrite !app_nil_r.
  - exists ([], []). intros regressions improvements. simpl. by rewrite !app_nil_r.
Qed.

Lemma check_result_appends (impl_id : string) (baseline_impl : list execution_result)
    (result : execution_result) :
  ∃ added,
    ∀ regressions improvements,
      check_result impl_id baseline_impl (regressions, improvements) result
      = Ok (regressions ++ added.1, improvements ++ added.2).
Proof.
  unfold check_result.
  destruct (success result); simpl;
    [destruct (find_baseline_test baseline_impl result) as [baseline_test|]|].
  - apply compare_to_baseline_appends.
  - exists ([], []). intros regressions improvements. simpl. by rewrite !app_nil_r.
  - exists ([], []). intros regressions improvements. simpl. by rewrite !app_nil_r.
Qed.

Lemma records_added_unfold (baseline_results : odict (list execution_result))
    (impl_id : string) (baseline_impl : list execution_result)
    (result : execution_result) :
  odict.get impl_id baseline_results = Some baseline_impl →
  ∀ regressions improvements,
    check_result impl_id baseline_impl (regressions, improvements) result
    = Ok (regressions ++ (records_added baseline_results impl_id result).1,
          improvements ++ (records_added baseline_results impl_id result).2).
Proof.
  intros Hget. unfold records_added, check_implementation. rewrite Hget. simpl.
  destruct (check_result_appends impl_id baseline_impl result) as [[regs imps] Hadded].
  intros regressions improvements. by rewrite !Hadded.
Qed.

Lemma records_added_no_baseline (baseline_results : odict (list execution_result))
    (impl_id : string) (result : execution_result) :
  odict.get impl_id baseline_results = None →
  records_added baseline_results impl_id result = ([], []).
Proof.
  intros Hget. unfold records_added, check_implementation. by rewrite Hget.
Qed.

(** The loop over the results of one implementation collects what each
    result adds, in order. *)
Lemma check_implementation_collects (baseline_results : odict (list execution_result))
    (impl_id : string) (impl_results : list execution_result)
    (regressions improvements : list (odict json_value)) :
  check_implementation baseline_results (regressions, improvements)
    (impl_id, impl_results)
  = Ok (regressions ++
          (result ← impl_results; (records_added baseline_results impl_id result).1),
        improvements ++
          (result ← impl_results; (records_added baseline_results impl_id result).2)).
Proof.
  unfold check_implementation.
  destruct (odict.get impl_id baseline_results) as [baseline_impl|] eqn:Hget.
  - revert regressions improvements.
    induction impl_results as [|result impl_results IH];
      intros regressions improvements; simpl.
    + by rewrite !app_nil_r.
    + rewrite (records_added_unfold _ _ _ _ Hget). csimpl.
      by rewrite IH, !app_assoc.
  - induction impl_results as [|result impl_results IH]; csimpl.
    + by rewrite !app_nil_r.
    + rewrite (records_added_no_baseline _ _ _ Hget). simpl. apply IH.
Qed.

(** And the loop over the implementations collects what their loops do. *)
Lemma detect_regressions_collects (baseline_results results : odict (list execution_result))
    (regressions improvements : list (odict json_value)) :
  for_each (check_implementation baseline_results) results (regressions, improvements)
  = Ok (regressions ++
          ('(impl, impl_results) ← results; result ← impl_results;
           (records_added baseline_results impl result).1),
        improvements ++
          ('(impl, impl_results) ← results; result ← impl_results;
           (records_added baseline_results impl result).2)).
Proof.
  revert regressions improvements.
  induction results as [|[impl impl_results] results IH];
    intros regressions improvements; cbn [for_each].
  - csimpl. by rewrite !app_nil_r.
  - rewrite check_implementation_collects. csimpl. by rewrite IH, !app_assoc.
Qed.

(** What a result matched with a baseline entry of positive ops/second
    adds. *)
Lemma records_added_matched (baseline_results : odict (list execution_result))
    (impl_id : string) (before after : list execution_result)
    (baseline_test result : execution_result) :
  odict.get impl_id baseline_results = Some (before ++ baseline_test :: after) →
  success result = true →
  same_key baseline_test result →
  Forall (λ baseline_result, other_key baseline_result result) before →
  records_added baseline_results impl_id result
  = match compare_to_baseline impl_id result baseline_test ([], []) with
    | Ok added => added
    | Raise _ => ([], [])
    end.
Proof.
  intros Hget Hok Hsame Hbefore.
  unfold records_added, check_implementation. rewrite Hget. cbn [for_each].
  unfold check_result.
  rewrite Hok, (find_baseline_test_first_match _ _ _ _ Hbefore Hsame). cbn [negb].
  by destruct (compare_to_baseline impl_id result baseline_test ([], [])).
Qed.

(** C4: the detector returns, in order, what every (implementation,
    result) pair adds.  A successful result whose key (test name, category,
    parameter combination) is that of an entry in the baseline of its
    implementation is compared with the first such entry; when that entry's
    ops/second is positive the change is
    [((current - baseline) / baseline) * 100], and the pair adds exactly one
    regression record (with the magnitude of the change) when the change is
    below [-5], exactly one improvement record when it is above [5], and no
    record from [-5] to [5] inclusive.  Against a baseline of 100, a
    current 90 is a regression of 10, 110 an improvement of 10, and 96
    neither. *)
Theorem regression_classification (path : string)
    (load_baseline : string → option (odict (list execution_result)))
    (baseline_results results : odict (list execution_result))
    (impl_id : string) (before after : list execution_result)
    (baseline_test result : execution_result) :
  let current_perf := default 0%float (ops_per_second result) in
  let baseline_perf := default 0%float (ops_per_second baseline_test) in
  let change :=
    PrimFloat.mul (PrimFloat.div (PrimFloat.sub current_perf baseline_perf)
                                 baseline_perf) 100 in
  path ≠ EmptyString → load_baseline path = Some baseline_results →
  detect_regressions (Some path) load_baseline results
  = Some {| regressions :=
              '(impl, impl_results) ← results; result ← impl_results;
              (records_added baseline_results impl result).1;
            improvements :=
              '(impl, impl_results) ← results; result ← impl_results;
              (records_added baseline_results impl result).2;
            baseline_file := path |}
  ∧ (odict.get impl_id baseline_results = Some (before ++ baseline_test :: after) →
     success result = true →
     same_key baseline_test result →
     Forall (λ baseline_result, other_key baseline_result result) before →
     PrimFloat.ltb 0 baseline_perf = true →
     change_percent current_perf baseline_perf = Ok change
     ∧ (PrimFloat.ltb change (-5) = true →
        records_added baseline_results impl_id result
        = ([regression_record impl_id (test_name result) (category result)
              (PrimFloat.abs change) current_perf baseline_perf], []))
     ∧ (PrimFloat.ltb 5 change = true →
        records_added baseline_results impl_id result
        = ([], [improvement_record impl_id (test_name result) (category result)
                  change current_perf baseline_perf]))
     ∧ (PrimFloat.leb (-5) change = true → PrimFloat.leb change 5 = true →
        records_added baseline_results impl_id result = ([], [])))
  ∧ detect_against_100 [fib_result 90]
    = Some {| regressions := [regression_record "chez" "fib" "recursion" 10 90 100];
              improvements := []; baseline_file := "baseline.json" |}
  ∧ detect_against_100 [fib_result 110]
    = Some {| regressions := [];
              improvements := [improvement_record "chez" "fib" "recursion" 10 110 100];
              baseline_file := "baseline.json" |}
  ∧ detect_against_100 [fib_result 96]
    = Some {| regressions := []; improvements := [];
              baseline_file := "baseline.json" |}.
Proof.
  intros current_perf baseline_perf change Hpath Hload.
  split_and!; [| |by vm_compute..].
  - unfold detect_regressions. rewrite Hload, detect_regressions_collects.
    by destruct path.
  - intros Hget Hok Hsame Hbefore Hpos.
    assert (Hchange : change_percent current_perf baseline_perf = Ok change).
    { unfold change_percent. by rewrite (truediv_positive _ _ Hpos). }
    rewrite (records_added_matched _ _ _ _ _ _ Hget Hok Hsame Hbefore).
    unfold compare_to_baseline.
    fold current_perf baseline_perf. rewrite Hpos, Hchange. csimpl.
    split_and!; [done|..].
    + intros ->. reflexivity.
    + intros Habove. by rewrite (float_above_5_not_below_minus_5 _ Habove), Habove.
    + intros Hlow%float_leb_not_ltb Hhigh%float_leb_not_ltb. by rewrite Hlow, Hhigh.
Qed.

Lemma regression_classification_witness :
  records_added baseline_100 "chez" (fib_result 90)
  = ([regression_record "chez" "fib" "recursion" 10 90 100], []).
Proof.
  destruct (regression_classification "baseline.json" (λ _, Some baseline_100)
              baseline_100 [("chez", [fib_result 90])] "chez"
              [ result_of "chez" "fib" "recursion" 20 50;
                result_of "chez" "tak" "recursion" 30 70;
                result_of "chez" "fib" "iteration" 30 80 ]
              [fib_result 1000] (fib_result 100) (fib_result 90))
    as (_ & Hmatched & _); [done|done|].
  destruct Hmatched as (_ & Hregression & _).
  - reflexivity.
  - reflexivity.
  - split_and!; [reflexivity|reflexivity|split; [reflexivity|]].
    intros k x [= -> ->]%list_elem_of_singleton.
    eexists. split; [reflexivity|constructor].
  - repeat apply Forall_cons_2; [| | |apply Forall_nil_2].
    + right. right. right. exists "n", (JInt 20).
      split; [apply list_elem_of_here|]. simpl. by constructor.
    + by left.
    + right. by left.
  - reflexivity.
  - exact (Hregression eq_refl).
Defined.

(** Several implementations and results against that baseline: the
    results are compared with the entry of their own implementation and
    key; a failed result, a test the baseline lacks and an implementation
    the baseline lacks add nothing. *)
Example detect_regressions_collection :
  detect_regressions (Some "baseline.json") (λ _, Some baseline_100)
    [ ("guile", [result_of "guile" "fib" "recursion" 30 15]);
      ("chez", [ fib_result 90;
                 {| implementation := "chez"; test_name := "fib";
                    category := "recursion"; parameters := [("n", JInt 30)];
                    success := false; mean_time_seconds := None;
                    ops_per_second := None; timing_results := [];
                    iterations := None; error := Some "boom" |};
                 result_of "chez" "ack" "recursion" 30 1;
                 result_of "chez" "fib" "recursion" 20 25 ]);
      ("racket", [result_of "racket" "fib" "recursion" 30 1]) ]
  = Some {| regressions := [ regression_record "chez" "fib" "recursion" 10 90 100;
                             regression_record "chez" "fib" "recursion" 50 25 50 ];
            improvements := [improvement_record "guile" "fib" "recursion" 50 15 10];
            baseline_file := "baseline.json" |}.
Proof. by vm_compute. Qed.

(** Without a baseline argument, or when the file cannot be loaded, the
    detector returns nothing. *)
Example detect_regressions_without_baseline (results : odict (list execution_result)) :
  detect_regressions None (λ _, None) results = None
  ∧ detect_regressions (Some EmptyString) (λ _, Some baseline_100) results = None
  ∧ detect_regressions (Some "baseline.json") (λ _, None) results = None.
Proof. by split_and!. Qed.

(** ** Failed results *)

Lemma group_result_failed (impl_id : string)
    (grouped_results : odict (odict (list float))) (result : execution_result) :
  success result = false → group_result impl_id grouped_results result = grouped_results.
Proof. intros Hfailed. unfold group_result. by rewrite Hfailed. Qed.

Lemma fold_group_result_successful (impl_id : string)
    (impl_results : list execution_result) (grouped_results : odict (odict (list float))) :
  fold_left (group_result impl_id) impl_results grouped_results
  = fold_left (group_result impl_id)
      (filter (λ result, success result = true) impl_results) grouped_results.
Proof.
  revert grouped_results.
  induction impl_results as [|result impl_results IH]; intros grouped_results; [done|].
  simpl. destruct (success result) eqn:Hok.
  - rewrite filter_cons_True by done. simpl. apply IH.
  - rewrite filter_cons_False by congruence.
    rewrite group_result_failed by done. apply IH.
Qed.

Lemma group_results_successful (results : odict (list execution_result)) :
  group_results results = group_results (successful_only results).
Proof.
  unfold group_results. generalize (@nil (string * odict (list float))).
  induction results as [|[impl_id impl_results] results IH]; intros grouped; [done|].
  simpl. rewrite <- fold_group_result_successful. apply IH.
Qed.

Lemma check_result_failed (impl_id : string) (baseline_impl : list execution_result)
    (acc : list (odict json_value) * list (odict json_value)) (result : execution_result) :
  success result = false → check_result impl_id baseline_impl acc result = Ok acc.
Proof. intros Hfailed. unfold check_result. by rewrite Hfailed. Qed.

Lemma for_each_check_result_successful (impl_id : string)
    (baseline_impl impl_results : list execution_result)
    (acc : list (odict json_value) * list (odict json_value)) :
  for_each (check_result impl_id baseline_impl) impl_results acc
  = for_each (check_result impl_id baseline_impl)
      (filter (λ result, success result = true) impl_results) acc.
Proof.
  revert acc. induction impl_results as [|result impl_results IH]; intros acc; [done|].
  simpl. destruct (success result) eqn:Hok.
  - rewrite filter_cons_True by done. simpl.
    destruct (check_result impl_id baseline_impl acc result); csimpl; [apply IH|done].
  - rewrite filter_cons_False by congruence.
    rewrite check_result_failed by done. csimpl. apply IH.
Qed.

Lemma for_each_check_implementation_successful
    (baseline_results results : odict (list execution_result))
    (acc : list (odict json_value) * list (odict json_value)) :
  for_each (check_implementation baseline_results) results acc
  = for_each (check_implementation baseline_results) (successful_only results) acc.
Proof.
  revert acc.
  induction results as [|[impl_id impl_results] results IH]; intros acc; [done|].
  simpl. destruct (odict.get impl_id baseline_results) as [baseline_impl|]; csimpl.
  - rewrite <- for_each_check_result_successful.
    destruct (for_each _ impl_results acc); csimpl; [apply IH|done].
  - apply IH.
Qed.

(** C7: the statistical analysis (the groups its descriptive statistics and
    its pairwise comparisons are computed from) and the regression
    detection give the same output on a collection of results and on that
    collection with every failed result removed: a result with
    [success = false] contributes nothing. *)
Theorem failed_results_contribute_nothing (py : python)
    (results : odict (list execution_result)) :
  group_results results = group_results (successful_only results)
  ∧ perform_statistical_analysis py results
    = perform_statistical_analysis py (successful_only results)
  ∧ ∀ regression_baseline load_baseline,
      detect_regressions regression_baseline load_baseline results
      = detect_regressions regression_baseline load_baseline (successful_only results).
Proof.
  split_and!.
  - apply group_results_successful.
  - unfold perform_statistical_analysis. by rewrite <- group_results_successful.
  - intros regression_baseline load_baseline. unfold detect_regressions.
    destruct regression_baseline as [path|]; [|done].
    destruct (load_baseline path) as [baseline_results|]; [|by destruct path].
    by rewrite <- for_each_check_implementation_successful.
Qed.

(** The timings a failed result may carry are not analysed: only the
    successful result of [chez] is grouped. *)
Example failed_result_is_not_grouped :
  group_results
    [("chez", [ fib_result 100;
                {| implementation := "chez"; test_name := "fib";
                   category := "recursion"; parameters := [("n", JInt 30)];
                   success := false; mean_time_seconds := None;
                   ops_per_second := None; timing_results := [7%float];
                   iterations := None; error := Some "boom" |} ])]
  = [("recursion_fib", [("chez", [PrimFloat.div 1 100])])].
Proof. reflexivity. Qed.

(** A failed baseline entry as the sandbox writes it (without
    [ops_per_second]) gives no record either. *)
Lemma failed_baseline_entry_gives_no_record (impl_id : string)
    (result baseline_test : execution_result)
    (acc : list (odict json_value) * list (odict json_value)) :
  ops_per_second baseline_test = None →
  compare_to_baseline impl_id result baseline_test acc = Ok acc.
Proof. intros Hnone. unfold compare_to_baseline. rewrite Hnone. by destruct acc. Qed.

(** ** Execution Sandbox *)

Section sandbox_facts.
Context (h : host) (config : statistical_config).
Context (impl : implementation_target) (temp_file : string).

Lemma sandbox_bind_Ok {A B} (m : sandbox A) (k : A → sandbox B) (w w' : world) (a : A) :
  m w = (Ok a, w') → (m ≫= k) w = k a w'.
Proof. intros Hm. unfold mbind, sandbox_bind. by rewrite Hm. Qed.

Lemma sandbox_bind_Raise {A B} (m : sandbox A) (k : A → sandbox B) (w w' : world)
    (e : exception) :
  m w = (Raise e, w') → (m ≫= k) w = (Raise e, w').
Proof. intros Hm. unfold mbind, sandbox_bind. by rewrite Hm. Qed.

Lemma advance_advance (w : world) (s1 r1 s2 r2 : nat) :
  advance (advance w s1 r1) s2 r2 = advance w (s1 + s2) (r1 + r2).
Proof. unfold advance. simpl. f_equal; lia. Qed.

Lemma advance_0 (w : world) : advance w 0 0 = w.
Proof. destruct w. unfold advance. simpl. f_equal; lia. Qed.

Lemma execute_test_file_run (w : world) :
  execute_test_file h impl temp_file w
  = (Ok (interpret_outcome (run_process h (spawned w) (command_line impl temp_file))),
     advance w 1 0).
Proof.
  unfold execute_test_file, subprocess_run, advance, mbind, sandbox_bind, mret, sandbox_ret.
  simpl. by rewrite Nat.add_0_r, Nat.add_1_r.
Qed.

Lemma time_time_run (w : world) :
  time_time h w = (Ok (clock h (ticks w)), advance w 0 1).
Proof. unfold time_time, advance. by rewrite Nat.add_0_r, Nat.add_1_r. Qed.

(** The warmup runs always complete, whatever the processes do. *)
Lemma warmup_runs_run (warmup : nat) (w : world) :
  warmup_runs h impl temp_file warmup w = (Ok (), advance w warmup 0).
Proof.
  revert w. induction warmup as [|warmup IH]; intros w; simpl.
  - by rewrite advance_0.
  - erewrite sandbox_bind_Ok by apply execute_test_file_run.
    rewrite IH, advance_advance. do 2 f_equal.
Qed.

(** One round of the measurement loop. *)
Lemma measurement_runs_step (iterations : nat) (timing_results : list float)
    (error : option string) (w : world) :
  measurement_runs h impl temp_file (S iterations) timing_results error w
  = let '(success, _, stderr) :=
      interpret_outcome (run_process h (spawned w) (command_line impl temp_file)) in
    if success
    then measurement_runs h impl temp_file iterations
           (timing_results ++ [elapsed h (ticks w) 0]) (Some stderr) (advance w 1 2)
    else (Ok (timing_results, Some stderr), advance w 1 2).
Proof.
  simpl. erewrite sandbox_bind_Ok by apply time_time_run.
  erewrite sandbox_bind_Ok by apply execute_test_file_run.
  simpl. rewrite Nat.add_0_r.
  destruct (interpret_outcome _) as [[success stdout] stderr].
  erewrite sandbox_bind_Ok by apply time_time_run.
  rewrite !advance_advance. simpl. unfold elapsed.
  replace (ticks w + 2 * 0 + 1) with (ticks w + 1) by lia.
  replace (ticks w + 2 * 0) with (ticks w) by lia.
  by destruct success.
Qed.

(** The measurement loop leaves the files alone. *)
Lemma measurement_runs_files (iterations : nat) (timing_results : list float)
    (error : option string) (w : world) :
  files (measurement_runs h impl temp_file iterations timing_results error w).2
  = files w.
Proof.
  revert timing_results error w.
  induction iterations as [|iterations IH]; intros timing_results error w; [done|].
  rewrite measurement_runs_step.
  destruct (interpret_outcome _) as [[[] stdout] stderr]; [|done].
  by rewrite IH.
Qed.

(** [k] successful rounds in a row add their [k] timings. *)
Lemma measurement_runs_successes (k iterations : nat) (timing_results : list float)
    (error : option string) (w : world) :
  (∀ i, i < k →
     succeeded (run_process h (spawned w + i) (command_line impl temp_file)) = true) →
  ∃ error',
    measurement_runs h impl temp_file (k + iterations) timing_results error w
    = measurement_runs h impl temp_file iterations
        (timing_results ++ map (elapsed h (ticks w)) (seq 0 k)) error'
        (advance w k (2 * k)).
Proof.
  revert timing_results error w.
  induction k as [|k IH]; intros timing_results error w Hok.
  - exists error. simpl. by rewrite advance_0, app_nil_r.
  - change (S k + iterations) with (S (k + iterations)).
    rewrite measurement_runs_step.
    pose proof (Hok 0 ltac:(lia)) as H0. rewrite Nat.add_0_r in H0.
    unfold succeeded in H0.
    destruct (interpret_outcome _) as [[success stdout] stderr]. simpl in H0. subst success.
    destruct (IH (timing_results ++ [elapsed h (ticks w) 0]) (Some stderr)
                (advance w 1 2)) as [error' ->].
    { intros i Hi. simpl. rewrite <- Nat.add_assoc. apply Hok. lia. }
    exists error'. rewrite advance_advance, <- app_assoc. simpl.
    do 2 f_equal; [|f_equal; lia].
    f_equal. rewrite <- seq_shift, map_map.
    apply map_ext. intros i. unfold elapsed. do 2 f_equal; lia.
Qed.
End sandbox_facts.

Lemma lift_exn_bind_Ok {A B} (a : A) (k : A → sandbox B) (w : world) :
  (lift_exn (Ok a) ≫= k) w = k a w.
Proof. reflexivity. Qed.

(** The [try] block leaves the files alone, on every exit. *)
Lemma run_single_test_body_files (h : host) (config : statistical_config)
    (impl : implementation_target) (test : test_definition) (params : combo)
    (category temp_file : string) (w : world) :
  files (run_single_test_body h config impl test params category temp_file w).2
  = files w.
Proof.
  unfold run_single_test_body.
  erewrite sandbox_bind_Ok by apply warmup_runs_run.
  pose proof (measurement_runs_files h impl temp_file
                (Z.to_nat (cfg_iterations config)) [] None
                (advance w (Z.to_nat (cfg_warmup_iterations config)) 0)) as Hfiles.
  unfold mbind, sandbox_bind.
  destruct (measurement_runs _ _ _ _ _ _ _) as [[[timing_results error]|e] w'];
    simpl in Hfiles; [|done].
  destruct timing_results as [|t timing_results].
  - by destruct error.
  - unfold lift_exn.
    destruct (truediv_int _ _) as [mean_time|]; [|done].
    by destruct (if PrimFloat.ltb 0 mean_time then _ else _).
Qed.

(** [try: body finally: os.unlink(path)] when the body leaves the files
    alone and the file is there: the body's outcome, and the file gone. *)
Lemma try_finally_unlink {A} (body : sandbox A) (path code : string) (w : world) :
  files (body w).2 = files w → files w !! path = Some code →
  try_finally body (os_unlink path) w
  = ((body w).1, {| files := delete path (files w); created := created (body w).2;
                    spawned := spawned (body w).2; ticks := ticks (body w).2 |}).
Proof.
  intros Hframe Hfile. unfold try_finally, os_unlink.
  destruct (body w) as [r w']. simpl in *. by rewrite Hframe, Hfile.
Qed.

(** Once the temporary file is written, [run_single_test] is its [try]
    block run on the world with that file added, followed by the removal of
    the file. *)
Lemma run_single_test_unfold (h : host) (config : statistical_config)
    (impl : implementation_target) (test : test_definition) (params : combo)
    (category : string) (w : world) :
  let temp_file := temp_file_of h impl w in
  let code := substitute_parameters h (code_template test) params in
  let w1 := {| files := <[temp_file := code]> (files w); created := S (created w);
               spawned := spawned w; ticks := ticks w |} in
  let run := run_single_test_body h config impl test params category temp_file w1 in
  temp_file_written h test params w →
  run_single_test h config impl test params category w
  = (run.1, {| files := delete temp_file (files w1); created := created run.2;
               spawned := spawned run.2; ticks := ticks run.2 |}).
Proof.
  intros temp_file code w1 run Hwritten. unfold run_single_test.
  erewrite sandbox_bind_Ok
    by (unfold named_temporary_file; rewrite Hwritten; reflexivity).
  apply (try_finally_unlink _ _ code).
  - apply run_single_test_body_files.
  - apply lookup_insert_eq.
Qed.

(** When the write or the close raises, the [try] block is never entered:
    the exception leaves [run_single_test], and the file that was created
    stays. *)
Lemma run_single_test_write_failed (h : host) (config : statistical_config)
    (impl : implementation_target) (test : test_definition) (params : combo)
    (category : string) (w : world) (e : exception) (remains : string) :
  write_temp h (created w) (substitute_parameters h (code_template test) params)
  = WriteFailed e remains →
  run_single_test h config impl test params category w
  = (Raise e, {| files := <[temp_file_of h impl w := remains]> (files w);
                 created := S (created w);
                 spawned := spawned w; ticks := ticks w |}).
Proof.
  intros Hfailed. unfold run_single_test.
  erewrite sandbox_bind_Raise
    by (unfold named_temporary_file; rewrite Hfailed; reflexivity).
  reflexivity.
Qed.

(** When the creation raises there is no file, and nothing changes. *)
Lemma run_single_test_create_failed (h : host) (config : statistical_config)
    (impl : implementation_target) (test : test_definition) (params : combo)
    (category : string) (w : world) (e : exception) :
  write_temp h (created w) (substitute_parameters h (code_template test) params)
  = CreateFailed e →
  run_single_test h config impl test params category w = (Raise e, w).
Proof.
  intros Hfailed. unfold run_single_test.
  erewrite sandbox_bind_Raise
    by (unfold named_temporary_file; rewrite Hfailed; reflexivity).
  reflexivity.
Qed.

(** Every exit of the [try] block removes the temporary file: when the
    file was written, it is gone when [run_single_test] returns or raises,
    whether the invocations succeeded, failed or timed out; and as that
    path was free before the run (it is a new file), the files are exactly
    those from before the run. *)
Lemma temporary_file_removed_once_written (h : host) (config : statistical_config)
    (impl : implementation_target) (test : test_definition) (params : combo)
    (category : string) (w : world) :
  let temp_file := temp_file_of h impl w in
  let after := (run_single_test h config impl test params category w).2 in
  temp_file_written h test params w →
  files after !! temp_file = None
  ∧ (files w !! temp_file = None → files after = files w).
Proof.
  intros temp_file after Hwritten. unfold after.
  rewrite run_single_test_unfold by done. simpl.
  split.
  - apply lookup_delete_eq.
  - intros Hfresh. fold temp_file. by rewrite delete_insert_id.
Qed.

(** C8 fails on the code: the temporary file is created and written before
    the [try] block whose [finally] removes it.  When the write (or the
    close) raises, [run_single_test] leaves by that exception and the file
    it created survives the run; so on a full disk the run of [fib] on
    [chez] raises [OSError] and leaves [/tmp/tmp0.scm] behind.  On the
    other exits the file is removed: when it was written, whatever the
    processes do; and when it could not be created, there is none. *)
Theorem temporary_file_survives_failed_write (h : host) (config : statistical_config)
    (impl : implementation_target) (test : test_definition) (params : combo)
    (category : string) (w : world) :
  let temp_file := temp_file_of h impl w in
  let code := substitute_parameters h (code_template test) params in
  let run := run_single_test h config impl test params category w in
  (∀ e remains,
     write_temp h (created w) code = WriteFailed e remains →
     run.1 = Raise e ∧ files run.2 !! temp_file = Some remains)
  ∧ (write_temp h (created w) code = Written →
     files run.2 !! temp_file = None
     ∧ (files w !! temp_file = None → files run.2 = files w))
  ∧ (∀ e, write_temp h (created w) code = CreateFailed e → run = (Raise e, w))
  ∧ run_single_test host_disk_full three_runs chez fib_test
      [("n", JInt 30)] "recursion" empty_world
    = (Raise (OSError "No space left on device"),
       {| files := {["/tmp/tmp0.scm" := EmptyString]};
          created := 1; spawned := 0; ticks := 0 |}).
Proof.
  intros temp_file code run. split_and!.
  - intros e remains Hfailed. unfold run.
    rewrite (run_single_test_write_failed _ _ _ _ _ _ _ _ _ Hfailed). simpl.
    split; [done|]. apply lookup_insert_eq.
  - intros Hwritten. by apply temporary_file_removed_once_written.
  - intros e Hfailed. by apply run_single_test_create_failed.
  - by vm_compute.
Qed.

(** The [try] block when the first [k >= 1] timed invocations succeed and
    the next one, still within the configured iterations, fails. *)
Lemma run_single_test_body_partial (h : host) (config : statistical_config)
    (impl : implementation_target) (test : test_definition) (params : combo)
    (category temp_file : string) (w : world) (k : nat) :
  let warmup := Z.to_nat (cfg_warmup_iterations config) in
  0 < k → k < Z.to_nat (cfg_iterations config) →
  (∀ i, i < k →
     succeeded (run_process h (spawned w + warmup + i) (command_line impl temp_file))
     = true) →
  succeeded (run_process h (spawned w + warmup + k) (command_line impl temp_file))
  = false →
  ∃ mean_time ops,
    run_single_test_body h config impl test params category temp_file w
    = (Ok {| implementation := impl_id impl; test_name := t_name test;
             category := category; parameters := params; success := true;
             mean_time_seconds := Some mean_time; ops_per_second := Some ops;
             timing_results := map (elapsed h (ticks w)) (seq 0 k);
             iterations := Some (Z.of_nat k); error := None |},
       advance w (warmup + k + 1) (2 * k + 2)).
Proof.
  intros warmup Hk Hlt Hok Hfail. unfold run_single_test_body. fold warmup.
  erewrite sandbox_bind_Ok by apply warmup_runs_run.
  assert (∃ error,
            measurement_runs h impl temp_file (Z.to_nat (cfg_iterations config)) [] None
              (advance w warmup 0)
            = (Ok (map (elapsed h (ticks w)) (seq 0 k), error),
               advance w (warmup + k + 1) (2 * k + 2))) as [error Hruns].
  { replace (Z.to_nat (cfg_iterations config))
      with (k + S (Z.to_nat (cfg_iterations config) - k - 1)) by lia.
    destruct (measurement_runs_successes h impl temp_file k
                (S (Z.to_nat (cfg_iterations config) - k - 1)) [] None
                (advance w warmup 0)) as [error' ->].
    { intros i Hi. simpl. by apply Hok. }
    rewrite measurement_runs_step. simpl.
    unfold succeeded in Hfail.
    destruct (interpret_outcome _) as [[success stdout] stderr].
    simpl in Hfail. subst success. exists (Some stderr).
    rewrite !advance_advance, Nat.add_0_r. do 2 f_equal; lia. }
  erewrite sandbox_bind_Ok by exact Hruns. simpl.
  destruct k as [|k]; [lia|].
  destruct (map _ (seq 0 (S k))) as [|t ts] eqn:Hts; [done|].
  assert (Hlen : length (t :: ts) = S k).
  { by rewrite <- Hts, length_map, length_seq. }
  rewrite truediv_int_nonzero by (rewrite Hlen; lia).
  rewrite lift_exn_bind_Ok.
  match goal with |- context [PrimFloat.ltb 0 ?m] => set (mean_time := m) end.
  exists mean_time.
  assert (∃ ops, (if PrimFloat.ltb 0 mean_time then truediv 1 mean_time else Ok 0%float)
                 = Ok ops) as [ops ->].
  { destruct (PrimFloat.ltb 0 mean_time) eqn:Hpos; [|by eexists].
    rewrite (truediv_positive _ _ Hpos). by eexists. }
  exists ops. rewrite lift_exn_bind_Ok. unfold mret, sandbox_ret.
  by rewrite Hlen.
Qed.

(** C2 (as the code has it): in a run whose temporary file was written,
    when the first [k >= 1] timed invocations succeed and the next one,
    within the configured iterations, fails, the run stops at that failure (it spawns the warmup processes and [k + 1]
    timed ones, no more) and returns a result that carries the [k] timings
    collected before the failure and is marked successful
    ([success = true], no error). *)
Theorem partial_failure_stops_and_keeps_timings (h : host) (config : statistical_config)
    (impl : implementation_target) (test : test_definition) (params : combo)
    (category : string) (w : world) (k : nat) :
  let temp_file := temp_file_of h impl w in
  let warmup := Z.to_nat (cfg_warmup_iterations config) in
  temp_file_written h test params w →
  0 < k → k < Z.to_nat (cfg_iterations config) →
  (∀ i, i < k →
     succeeded (run_process h (spawned w + warmup + i) (command_line impl temp_file))
     = true) →
  succeeded (run_process h (spawned w + warmup + k) (command_line impl temp_file))
  = false →
  ∃ result after,
    run_single_test h config impl test params category w = (Ok result, after)
    ∧ timing_results result = map (elapsed h (ticks w)) (seq 0 k)
    ∧ iterations result = Some (Z.of_nat k)
    ∧ spawned after = spawned w + warmup + k + 1
    ∧ success result = true
    ∧ error result = None.
Proof.
  intros temp_file warmup Hwritten Hk Hlt Hok Hfail.
  rewrite run_single_test_unfold by done. fold temp_file.
  set (w1 := {| files := _; created := _; spawned := spawned w; ticks := ticks w |}).
  destruct (run_single_test_body_partial h config impl test params category temp_file
              w1 k Hk Hlt Hok Hfail) as (mean_time & ops & ->).
  eexists _, _. split_and!; [reflexivity|done|done| |done|done].
  simpl. fold warmup. lia.
Qed.

Lemma partial_failure_stops_and_keeps_timings_witness :
  ∃ result after,
    run_single_test host_ok_then_fail three_runs chez fib_test
      [("n", JInt 30)] "recursion" empty_world = (Ok result, after)
    ∧ timing_results result = [1%float]
    ∧ spawned after = 2
    ∧ success result = true.
Proof.
  destruct (partial_failure_stops_and_keeps_timings host_ok_then_fail three_runs
              chez fib_test [("n", JInt 30)] "recursion" empty_world 1)
    as (result & after & Hrun & Htimings & _ & Hspawned & Hsuccess & _).
  - reflexivity.
  - lia.
  - simpl. lia.
  - intros i Hi. by replace i with 0 by lia.
  - reflexivity.
  - exists result, after. split_and!; [exact Hrun| |exact Hspawned|exact Hsuccess].
    rewrite Htimings. by vm_compute.
Defined.

(** C2 as stated fails: with three iterations configured, a first timed
    invocation that succeeds and a second one that exits with code 1, the
    result keeps the one timing but is marked successful, not failed. *)
Lemma partial_failure_is_not_marked_failed :
  ∃ result after,
    run_single_test host_ok_then_fail three_runs chez fib_test
      [("n", JInt 30)] "recursion" empty_world = (Ok result, after)
    ∧ timing_results result = [1%float]
    ∧ spawned after = 2
    ∧ success result ≠ false.
Proof. eexists _, _. split_and!; [by vm_compute|done..]. Qed.

(** The exits of a run: every invocation times out (a failed result), or
    no iteration is configured (the unbound [error] raises); the file is
    gone in both. *)
Example run_with_timeouts :
  run_single_test host_timeout three_runs chez fib_test
    [("n", JInt 30)] "recursion" empty_world
  = (Ok {| implementation := "chez"; test_name := "fib"; category := "recursion";
           parameters := [("n", JInt 30)]; success := false;
           mean_time_seconds := None; ops_per_second := None;
           timing_results := []; iterations := None;
           error := Some "Test timed out" |},
     {| files := ∅; created := 1; spawned := 1; ticks := 2 |}).
Proof. by vm_compute. Qed.

Example run_without_iterations :
  run_single_test host_timeout no_runs chez fib_test
    [("n", JInt 30)] "recursion" empty_world
  = (Raise (UnboundLocalError "error"),
     {| files := ∅; created := 1; spawned := 1; ticks := 0 |}).
Proof. by vm_compute. Qed.
(** * Further properties *)

(** ** Parameter Expander: what the combinations are *)

Lemma elem_of_expand_contents (combinations : list combo) (param : parameter)
    (m : gmap string json_value) :
  m ∈ contents (expand_parameter combinations param)
  ↔ ∃ value_def value m',
      value_def ∈ p_values param ∧ extract_value value_def = Some value
      ∧ m' ∈ contents combinations ∧ m = <[p_name param := value]> m'.
Proof.
  rewrite expand_parameter_contents. rewrite list_elem_of_bind. split.
  - intros (value & (m' & ->%list_elem_of_singleton & Hm')%list_elem_of_bind
            & (value_def & Hin & Hv)%list_elem_of_omap).
    by exists value_def, value, m'.
  - intros (value_def & value & m' & Hin & Hv & Hm' & ->).
    exists value. split.
    + apply list_elem_of_bind. exists m'. split; [apply list_elem_of_singleton|]; done.
    + apply list_elem_of_omap. by exists value_def.
Qed.

Lemma fold_expand_membership (parameters : list parameter) (m : gmap string json_value) :
  NoDup (p_name <$> parameters) →
  m ∈ contents (fold_left expand_parameter parameters [[]])
  ↔ assigns_declared_values parameters m.
Proof.
  revert m. induction parameters as [|param parameters IH] using rev_ind; intros m Hnames.
  - unfold assigns_declared_values, contents. simpl.
    rewrite list_elem_of_singleton. split.
    + intros ->. split; [apply dom_empty_L|constructor].
    + intros [Hdom _]. by apply dom_empty_inv_L.
  - rewrite fmap_app in Hnames. simpl in Hnames.
    apply NoDup_app in Hnames as (Hnames & Hfresh & _).
    assert (Hname : p_name param ∉ p_name <$> parameters).
    { intros Hin. apply (Hfresh _ Hin). apply list_elem_of_singleton. done. }
    rewrite fold_expand_snoc, elem_of_expand_contents.
    unfold assigns_declared_values. rewrite fmap_app, list_to_set_app_L, Forall_app.
    simpl. rewrite Forall_singleton, union_empty_r_L. split.
    + intros (value_def & value & m' & Hin & Hv & Hm'%IH & ->); [|done].
      destruct Hm' as [Hdom Hall]. split_and!.
      * rewrite dom_insert_L, Hdom. set_solver.
      * eapply Forall_impl; [exact Hall|]. cbv beta.
        intros q (vd & v & ? & ? & Hq). exists vd, v. split_and!; [done..|].
        rewrite lookup_insert_ne; [done|].
        intros Heq. apply Hname. rewrite Heq.
        apply elem_of_dom_2 in Hq. rewrite Hdom in Hq. set_solver.
      * exists value_def, value. by rewrite lookup_insert_eq.
    + intros (Hdom & Hall & value_def & value & Hin & Hv & Hm).
      exists value_def, value, (delete (p_name param) m). split_and!; [done..| |].
      * apply IH; [done|]. split.
        -- rewrite dom_delete_L, Hdom. set_solver.
        -- rewrite Forall_forall in Hall. apply Forall_forall. intros q Hq.
           destruct (Hall q Hq) as (vd & v & ? & ? & Hlook). exists vd, v.
           split_and!; [done..|]. rewrite lookup_delete_ne; [done|].
           intros Heq. apply Hname. rewrite Heq. by apply list_elem_of_fmap_2.
      * by rewrite insert_delete_id.
Qed.

(** X1: for a schema with distinct parameter names, the combinations are
    exactly the assignments of one usable declared value to every
    parameter: each combination has the parameter names as its keys and a
    declared value of a supported type under each, and every such
    assignment is among the combinations. *)
Theorem expander_is_the_cross_product (parameters : list parameter)
    (m : gmap string json_value) :
  NoDup (p_name <$> parameters) →
  m ∈ contents (generate_parameter_combinations parameters)
  ↔ assigns_declared_values parameters m.
Proof. rewrite generate_fold. apply fold_expand_membership. Qed.

Lemma expander_is_the_cross_product_witness :
  {["a" := JInt 2; "b" := JString "x"]}
  ∈ contents (generate_parameter_combinations schema_ab).
Proof.
  apply (expander_is_the_cross_product schema_ab).
  - simpl. nodup_concrete.
  - split.
    + by vm_compute.
    + repeat apply Forall_cons_2; [| |apply Forall_nil_2].
      * exists (ValueDef "Integer" (JInt 2)), (JInt 2). split_and!; [|done..].
        apply list_elem_of_further, list_elem_of_here.
      * exists (ValueDef "String" (JString "x")), (JString "x"). split_and!; [|done..].
        apply list_elem_of_here.
Defined.


(** ** Parameter Expander: unsupported entries and key order *)

Lemma omap_extract_filter (values : list value_def) :
  omap extract_value (filter (λ value_def, is_Some (extract_value value_def)) values)
  = omap extract_value values.
Proof.
  induction values as [|value_def values IH]; [done|].
  destruct (extract_value value_def) as [value|] eqn:Hv.
  - rewrite filter_cons_True by (by rewrite Hv). csimpl. by rewrite Hv, IH.
  - rewrite filter_cons_False by (rewrite Hv; by intros [? ?]). csimpl. by rewrite Hv.
Qed.

Lemma fold_expand_supported_only (parameters : list parameter) (combinations : list combo) :
  fold_left expand_parameter (supported_only parameters) combinations
  = fold_left expand_parameter parameters combinations.
Proof.
  revert combinations.
  induction parameters as [|param parameters IH]; intros combinations; [done|].
  simpl. rewrite IH. f_equal.
  rewrite !expand_parameter_omap. simpl. by rewrite omap_extract_filter.
Qed.

(** X2: value entries of an unsupported type are skipped one by one: the
    expansion is the one of the schema with those entries removed. *)
Theorem expander_skips_unsupported_entries (parameters : list parameter) :
  generate_parameter_combinations parameters
  = generate_parameter_combinations (supported_only parameters).
Proof.
  rewrite !generate_fold. symmetry. apply fold_expand_supported_only.
Qed.

Lemma odict_keys_set_new {V} (k : string) (v : V) (d : odict V) :
  k ∉ odict.keys d → odict.keys (odict.set k v d) = odict.keys d ++ [k].
Proof.
  unfold odict.keys. induction d as [|[k' v'] d IH]; intros Hk; [done|].
  simpl in *. apply not_elem_of_cons in Hk as [Hne Hk].
  rewrite (proj2 (String.eqb_neq k k') Hne). csimpl. f_equal. by apply IH.
Qed.

Lemma fold_expand_keys (parameters : list parameter) :
  NoDup (p_name <$> parameters) →
  Forall (λ combination, odict.keys combination = p_name <$> parameters)
         (fold_left expand_parameter parameters [[]]).
Proof.
  induction parameters as [|param parameters IH] using rev_ind; intros Hnames.
  - by repeat constructor.
  - rewrite fmap_app in Hnames. simpl in Hnames.
    apply NoDup_app in Hnames as (Hnames & Hfresh & _).
    rewrite fold_expand_snoc, expand_parameter_omap.
    apply Forall_bind, Forall_forall. intros value _.
    apply Forall_bind. eapply Forall_impl; [exact (IH Hnames)|].
    intros combination Hkeys. apply Forall_singleton.
    rewrite odict_keys_set_new, Hkeys, fmap_app; [done|].
    rewrite Hkeys. intros Hin. apply (Hfresh _ Hin), list_elem_of_here.
Qed.

(** X3: for a schema with distinct parameter names, every combination
    lists the parameters in their declaration order (the order in which
    [run_single_test] substitutes them into the code template). *)
Theorem expander_keeps_declaration_order_of_keys (parameters : list parameter) :
  NoDup (p_name <$> parameters) →
  Forall (λ combination, odict.keys combination = p_name <$> parameters)
         (generate_parameter_combinations parameters).
Proof. rewrite generate_fold. apply fold_expand_keys. Qed.

Lemma expander_keeps_declaration_order_of_keys_witness :
  Forall (λ combination, odict.keys combination = ["a"; "b"])
         (generate_parameter_combinations schema_ab).
Proof.
  apply (expander_keeps_declaration_order_of_keys schema_ab). simpl. nodup_concrete.
Defined.


(** ** Execution Sandbox: the outcomes of a run *)

(** The measurement loop always completes; what it returns. *)
Lemma measurement_runs_returns (h : host) (impl : implementation_target)
    (temp_file : string) (iterations : nat) (timing_results : list float)
    (error : option string) (w : world) :
  ∃ timings error' spawns,
    measurement_runs h impl temp_file iterations timing_results error w
    = (Ok (timing_results ++ timings, error'), advance w spawns (2 * spawns))
    ∧ length timings ≤ iterations
    ∧ spawns ≤ iterations
    ∧ (0 < iterations → is_Some error')
    ∧ (is_Some error → is_Some error').
Proof.
  revert timing_results error w.
  induction iterations as [|iterations IH]; intros timing_results error w.
  - exists [], error, 0. rewrite app_nil_r, advance_0.
    split_and!; [done|simpl; lia|lia|lia|done].
  - rewrite measurement_runs_step.
    destruct (interpret_outcome _) as [[[] stdout] stderr].
    + destruct (IH (timing_results ++ [elapsed h (ticks w) 0]) (Some stderr)
                  (advance w 1 2)) as (timings & error' & spawns & -> & Hlen & Hsp & _ & Hsome).
      exists (elapsed h (ticks w) 0 :: timings), error', (S spawns).
      rewrite advance_advance, <- app_assoc. simpl.
      split_and!; [do 2 f_equal; f_equal; lia|lia|lia|intros _; by apply Hsome|
                   intros _; by apply Hsome].
    + exists [], (Some stderr), 1. rewrite app_nil_r.
      split_and!; [done|simpl; lia|lia|done|done].
Qed.

(** What a run with at least one configured iteration returns. *)
Lemma run_single_test_result (h : host) (config : statistical_config)
    (impl : implementation_target) (test : test_definition) (params : combo)
    (category_name : string) (w : world) :
  temp_file_written h test params w →
  (0 < cfg_iterations config)%Z →
  ∃ result after,
    run_single_test h config impl test params category_name w = (Ok result, after)
    ∧ implementation result = impl_id impl
    ∧ test_name result = t_name test
    ∧ category result = category_name
    ∧ parameters result = params
    ∧ (success result = true ↔ timing_results result ≠ [])
    ∧ (Z.of_nat (length (timing_results result)) ≤ cfg_iterations config)%Z
    ∧ (success result = true →
       iterations result = Some (Z.of_nat (length (timing_results result)))
       ∧ error result = None
       ∧ ∃ mean, mean_of (timing_results result) = Ok mean
                 ∧ mean_time_seconds result = Some mean
                 ∧ ops_per_second result
                   = Some (if PrimFloat.ltb 0 mean then PrimFloat.div 1 mean
                           else 0%float))
    ∧ (success result = false →
       ∃ text, error result = Some text ∧ text ≠ EmptyString
               ∧ ops_per_second result = None).
Proof.
  intros Hwritten Hpos. rewrite run_single_test_unfold by done.
  set (w1 := {| files := _; created := _; spawned := spawned w; ticks := ticks w |}).
  unfold run_single_test_body.
  erewrite sandbox_bind_Ok by apply warmup_runs_run.
  destruct (measurement_runs_returns h impl (temp_file_of h impl w)
              (Z.to_nat (cfg_iterations config)) [] None
              (advance w1 (Z.to_nat (cfg_warmup_iterations config)) 0))
    as (timings & error' & spawns & Hruns & Hlen & _ & Hsome & _).
  erewrite sandbox_bind_Ok by exact Hruns. simpl.
  destruct timings as [|t timings].
  - destruct (Hsome ltac:(lia)) as [stderr ->].
    eexists _, _. split; [reflexivity|]. simpl.
    split_and!; [done..| |lia|done|].
    + split; [done|by intros []].
    + intros _. eexists. split_and!; [done| |done].
      by destruct (String.eqb_spec stderr EmptyString).
  - rewrite truediv_int_nonzero by (simpl; lia). rewrite lift_exn_bind_Ok.
    match goal with |- context [PrimFloat.ltb 0 ?m] => set (mean_time := m) end.
    assert ((if PrimFloat.ltb 0 mean_time then truediv 1 mean_time else Ok 0%float)
            = Ok (if PrimFloat.ltb 0 mean_time then PrimFloat.div 1 mean_time
                  else 0%float)) as ->.
    { destruct (PrimFloat.ltb 0 mean_time) eqn:Hm; [|done].
      by rewrite (truediv_positive _ _ Hm). }
    rewrite lift_exn_bind_Ok.
    eexists _, _. split; [reflexivity|]. simpl.
    split_and!; [done..| | | |done].
    + split; [done|by intros _].
    + simpl in Hlen. lia.
    + intros _. split_and!; [done..|]. exists mean_time. split_and!; [|done..].
      unfold mean_of. by rewrite truediv_int_nonzero by (simpl; lia).
Qed.

(** X4: with its temporary file written and at least one iteration
    configured, [run_single_test] never raises: it returns a result for the implementation, test, category and
    parameters it was given; the result is successful exactly when it
    carries at least one timing, and it never carries more timings than
    iterations were configured.  A successful result records the number of
    timings, no error, their mean, and as ops/second the reciprocal of a
    positive mean ([0] otherwise); a failed result records a non-empty
    error text and no ops/second. *)
Theorem run_single_test_returns_a_result (h : host) (config : statistical_config)
    (impl : implementation_target) (test : test_definition) (params : combo)
    (category_name : string) (w : world) :
  temp_file_written h test params w →
  (0 < cfg_iterations config)%Z →
  ∃ result after,
    run_single_test h config impl test params category_name w = (Ok result, after)
    ∧ implementation result = impl_id impl
    ∧ test_name result = t_name test
    ∧ category result = category_name
    ∧ parameters result = params
    ∧ (success result = true ↔ timing_results result ≠ [])
    ∧ (Z.of_nat (length (timing_results result)) ≤ cfg_iterations config)%Z
    ∧ (success result = true →
       iterations result = Some (Z.of_nat (length (timing_results result)))
       ∧ error result = None
       ∧ ∃ mean, mean_of (timing_results result) = Ok mean
                 ∧ mean_time_seconds result = Some mean
                 ∧ ops_per_second result
                   = Some (if PrimFloat.ltb 0 mean then PrimFloat.div 1 mean
                           else 0%float))
    ∧ (success result = false →
       ∃ text, error result = Some text ∧ text ≠ EmptyString
               ∧ ops_per_second result = None).
Proof. apply run_single_test_result. Qed.

Lemma run_single_test_returns_a_result_witness :
  ∃ result after,
    run_single_test host_timeout three_runs chez fib_test
      [("n", JInt 30)] "recursion" empty_world = (Ok result, after)
    ∧ test_name result = "fib".
Proof.
  destruct (run_single_test_returns_a_result host_timeout three_runs chez fib_test
              [("n", JInt 30)] "recursion" empty_world)
    as (result & after & Hrun & _ & Htest & _); [done..|].
  by exists result, after.
Defined.


(** X5: in a run whose temporary file was written, when every timed
    invocation succeeds, the result is successful and
    carries exactly the configured number of timings, each the difference
    of the two clock readings around its invocation; the run spawns the
    warmup processes and one process per iteration. *)
Theorem all_iterations_succeed (h : host) (config : statistical_config)
    (impl : implementation_target) (test : test_definition) (params : combo)
    (category_name : string) (w : world) :
  let temp_file := temp_file_of h impl w in
  let warmup := Z.to_nat (cfg_warmup_iterations config) in
  let n := Z.to_nat (cfg_iterations config) in
  temp_file_written h test params w →
  0 < n →
  (∀ i, i < n →
     succeeded (run_process h (spawned w + warmup + i) (command_line impl temp_file))
     = true) →
  ∃ result after,
    run_single_test h config impl test params category_name w = (Ok result, after)
    ∧ success result = true
    ∧ timing_results result = map (elapsed h (ticks w)) (seq 0 n)
    ∧ iterations result = Some (Z.of_nat n)
    ∧ spawned after = spawned w + warmup + n
    ∧ ticks after = ticks w + 2 * n.
Proof.
  intros temp_file warmup n Hwritten Hn Hok.
  rewrite run_single_test_unfold by done. fold temp_file.
  set (w1 := {| files := _; created := _; spawned := spawned w; ticks := ticks w |}).
  unfold run_single_test_body. fold warmup n.
  erewrite sandbox_bind_Ok by apply warmup_runs_run.
  destruct (measurement_runs_successes h impl temp_file n 0 [] None
              (advance w1 warmup 0)) as [error' Hruns].
  { intros i Hi. simpl. by apply Hok. }
  rewrite Nat.add_0_r in Hruns. simpl in Hruns.
  replace (ticks w + 0) with (ticks w) in Hruns by lia.
  erewrite sandbox_bind_Ok by exact Hruns. simpl.
  destruct n as [|n]; [lia|].
  destruct (map _ (seq 0 (S n))) as [|t ts] eqn:Hts; [done|].
  assert (Hlen : length (t :: ts) = S n).
  { by rewrite <- Hts, length_map, length_seq. }
  rewrite truediv_int_nonzero by (rewrite Hlen; lia).
  rewrite lift_exn_bind_Ok.
  match goal with |- context [PrimFloat.ltb 0 ?m] => set (mean_time := m) end.
  assert (∃ ops, (if PrimFloat.ltb 0 mean_time then truediv 1 mean_time else Ok 0%float)
                 = Ok ops) as [ops ->].
  { destruct (PrimFloat.ltb 0 mean_time) eqn:Hpos; [|by eexists].
    rewrite (truediv_positive _ _ Hpos). by eexists. }
  rewrite lift_exn_bind_Ok, Hlen.
  eexists _, _. split; [reflexivity|]. simpl.
  split_and!; [done|by rewrite <- Hts|done|lia|lia].
Qed.

Lemma all_iterations_succeed_witness :
  ∃ result after,
    run_single_test host_ok_then_fail
      {| cfg_iterations := 1; cfg_warmup_iterations := 0 |} chez fib_test
      [("n", JInt 30)] "recursion" empty_world = (Ok result, after)
    ∧ success result = true
    ∧ timing_results result = [1%float].
Proof.
  destruct (all_iterations_succeed host_ok_then_fail
              {| cfg_iterations := 1; cfg_warmup_iterations := 0 |} chez fib_test
              [("n", JInt 30)] "recursion" empty_world)
    as (result & after & Hrun & Hsuccess & Htimings & _).
  - reflexivity.
  - simpl. lia.
  - intros i Hi. simpl in Hi. by replace i with 0 by lia.
  - exists result, after. split_and!; [done..|]. rewrite Htimings. by vm_compute.
Defined.

(** X6: in a run whose temporary file was written, when the first timed
    invocation fails (non-zero exit, timeout or
    an exception of the spawn), the run stops after it and the result is
    failed, without timings; its error is the text captured for that
    invocation (the standard error output, the timeout marker or the
    exception text), or ["Test execution failed"] when that text is
    empty. *)
Theorem first_iteration_fails (h : host) (config : statistical_config)
    (impl : implementation_target) (test : test_definition) (params : combo)
    (category_name : string) (w : world) :
  let temp_file := temp_file_of h impl w in
  let warmup := Z.to_nat (cfg_warmup_iterations config) in
  let outcome := run_process h (spawned w + warmup) (command_line impl temp_file) in
  temp_file_written h test params w →
  (0 < cfg_iterations config)%Z →
  succeeded outcome = false →
  ∃ result after,
    run_single_test h config impl test params category_name w = (Ok result, after)
    ∧ success result = false
    ∧ timing_results result = []
    ∧ error result
      = Some (match outcome with
              | Completed _ _ EmptyString | SpawnFailed EmptyString =>
                  "Test execution failed"
              | Completed _ _ stderr => stderr
              | TimeoutExpired => "Test timed out"
              | SpawnFailed message => message
              end)
    ∧ spawned after = spawned w + warmup + 1.
Proof.
  intros temp_file warmup outcome Hwritten Hpos Hfail.
  rewrite run_single_test_unfold by done. fold temp_file.
  set (w1 := {| files := _; created := _; spawned := spawned w; ticks := ticks w |}).
  unfold run_single_test_body. fold warmup.
  erewrite sandbox_bind_Ok by apply warmup_runs_run.
  replace (Z.to_nat (cfg_iterations config))
    with (S (Z.to_nat (cfg_iterations config) - 1)) by lia.
  rewrite (sandbox_bind_Ok _ _ _ (advance (advance w1 warmup 0) 1 2)
             ([], Some (interpret_outcome outcome).2)).
  2:{ rewrite measurement_runs_step. simpl. fold outcome.
      unfold succeeded in Hfail.
      destruct (interpret_outcome outcome) as [[success stdout] stderr].
      simpl in Hfail. by subst success. }
  simpl. eexists _, _. split; [reflexivity|]. simpl.
  split_and!; [done..| |lia].
  f_equal. unfold succeeded in Hfail.
  destruct outcome as [returncode stdout stderr| |message]; simpl in *.
  - by destruct stderr.
  - done.
  - by destruct message.
Qed.

Lemma first_iteration_fails_witness :
  ∃ result after,
    run_single_test host_timeout three_runs chez fib_test
      [("n", JInt 30)] "recursion" empty_world = (Ok result, after)
    ∧ success result = false
    ∧ error result = Some "Test timed out".
Proof.
  destruct (first_iteration_fails host_timeout three_runs chez fib_test
              [("n", JInt 30)] "recursion" empty_world)
    as (result & after & Hrun & Hsuccess & _ & Herror & _); [done..|].
  by exists result, after.
Defined.

(** X7: when no iteration is configured (zero or a negative number), a
    run whose temporary file was written raises [UnboundLocalError] for the variable [error] after the
    warmup runs, whatever the processes do; the temporary file is removed
    all the same. *)
Theorem no_iteration_raises (h : host) (config : statistical_config)
    (impl : implementation_target) (test : test_definition) (params : combo)
    (category_name : string) (w : world) :
  temp_file_written h test params w →
  (cfg_iterations config ≤ 0)%Z →
  ∃ after,
    run_single_test h config impl test params category_name w
    = (Raise (UnboundLocalError "error"), after)
    ∧ spawned after = spawned w + Z.to_nat (cfg_warmup_iterations config)
    ∧ files after !! temp_file_of h impl w = None.
Proof.
  intros Hwritten Hnone. rewrite run_single_test_unfold by done.
  set (w1 := {| files := _; created := _; spawned := spawned w; ticks := ticks w |}).
  unfold run_single_test_body.
  erewrite sandbox_bind_Ok by apply warmup_runs_run.
  replace (Z.to_nat (cfg_iterations config)) with 0 by lia.
  eexists. split; [reflexivity|]. simpl. split; [lia|apply lookup_delete_eq].
Qed.

Lemma no_iteration_raises_witness :
  ∃ after,
    run_single_test host_timeout no_runs chez fib_test
      [("n", JInt 30)] "recursion" empty_world
    = (Raise (UnboundLocalError "error"), after)
    ∧ spawned after = 1.
Proof.
  destruct (no_iteration_raises host_timeout no_runs chez fib_test
              [("n", JInt 30)] "recursion" empty_world) as (after & Hrun & Hsp & _);
    [done..|].
  by exists after.
Defined.


Lemma sandbox_bind_ext {A B} (m m' : sandbox A) (k : A → sandbox B) (w : world) :
  m w = m' w → (m ≫= k) w = (m' ≫= k) w.
Proof. intros Hm. unfold mbind, sandbox_bind. by rewrite Hm. Qed.

(** The measurement loop only looks at the processes spawned from now on
    and at the clock. *)
Lemma measurement_runs_hosts_agree (h h' : host) (impl : implementation_target)
    (temp_file : string) (iterations : nat) (timing_results : list float)
    (error : option string) (w : world) :
  clock h' = clock h →
  (∀ n, spawned w ≤ n →
     run_process h' n (command_line impl temp_file)
     = run_process h n (command_line impl temp_file)) →
  measurement_runs h' impl temp_file iterations timing_results error w
  = measurement_runs h impl temp_file iterations timing_results error w.
Proof.
  intros Hclock. revert timing_results error w.
  induction iterations as [|iterations IH]; intros timing_results error w Hproc; [done|].
  rewrite !measurement_runs_step, (Hproc (spawned w)) by lia.
  unfold elapsed. rewrite Hclock.
  destruct (interpret_outcome _) as [[[] stdout] stderr]; [|done].
  apply IH. intros n Hn. apply Hproc. simpl in Hn. lia.
Qed.

(** X8: what the warmup invocations do is ignored: two hosts that differ
    only in the outcomes of the processes spawned before the first timed
    invocation give the same result and leave the same state. *)
Theorem warmup_outcomes_are_ignored (h h' : host) (config : statistical_config)
    (impl : implementation_target) (test : test_definition) (params : combo)
    (category_name : string) (w : world) :
  temp_stem h' = temp_stem h → write_temp h' = write_temp h →
  clock h' = clock h → float_repr h' = float_repr h →
  (∀ n cmd, spawned w + Z.to_nat (cfg_warmup_iterations config) ≤ n →
     run_process h' n cmd = run_process h n cmd) →
  run_single_test h' config impl test params category_name w
  = run_single_test h config impl test params category_name w.
Proof.
  intros Hstem Hwrite Hclock Hrepr Hproc.
  assert (Htemp : temp_file_of h' impl w = temp_file_of h impl w).
  { unfold temp_file_of. by rewrite Hstem. }
  assert (Hcode : substitute_parameters h' (code_template test) params
                  = substitute_parameters h (code_template test) params).
  { unfold substitute_parameters, py_str. by rewrite Hrepr. }
  destruct (write_temp h (created w)
              (substitute_parameters h (code_template test) params))
    as [|e remains|e] eqn:Houtcome.
  2:{ rewrite (run_single_test_write_failed h _ _ _ _ _ _ e remains) by done.
      rewrite (run_single_test_write_failed h' _ _ _ _ _ _ e remains)
        by (by rewrite Hcode, Hwrite).
      by rewrite Htemp. }
  2:{ rewrite (run_single_test_create_failed h _ _ _ _ _ _ e) by done.
      by rewrite (run_single_test_create_failed h' _ _ _ _ _ _ e)
        by (by rewrite Hcode, Hwrite). }
  rewrite !run_single_test_unfold
    by (unfold temp_file_written; by rewrite ?Hcode, ?Hwrite).
  rewrite Htemp, Hcode.
  set (w1 := {| files := _; created := _; spawned := spawned w; ticks := ticks w |}).
  assert (Hbody : run_single_test_body h' config impl test params category_name
                    (temp_file_of h impl w) w1
                  = run_single_test_body h config impl test params category_name
                    (temp_file_of h impl w) w1).
  { unfold run_single_test_body.
    rewrite (sandbox_bind_Ok _ _ w1 _ _ (warmup_runs_run h' impl _ _ w1)).
    rewrite (sandbox_bind_Ok _ _ w1 _ _ (warmup_runs_run h impl _ _ w1)).
    apply sandbox_bind_ext, measurement_runs_hosts_agree; [done|].
    intros n Hn. apply Hproc. simpl in Hn. lia. }
  by rewrite Hbody.
Qed.

Lemma warmup_outcomes_are_ignored_witness :
  run_single_test
    {| temp_stem := temp_stem host_timeout;
       write_temp := write_temp host_timeout;
       run_process := λ n cmd, match n with 0 => Completed 0 "ok" EmptyString
                                          | _ => TimeoutExpired end;
       clock := clock host_timeout; float_repr := float_repr host_timeout |}
    {| cfg_iterations := 2; cfg_warmup_iterations := 1 |} chez fib_test
    [("n", JInt 30)] "recursion" empty_world
  = run_single_test host_timeout
      {| cfg_iterations := 2; cfg_warmup_iterations := 1 |} chez fib_test
      [("n", JInt 30)] "recursion" empty_world.
Proof.
  apply warmup_outcomes_are_ignored; [done..|].
  intros n cmd Hn. simpl in *. destruct n; [lia|done].
Defined.


(** ** The benchmark sweep *)

(** The [try] block only spawns processes and reads the clock. *)
Lemma run_single_test_body_world (h : host) (config : statistical_config)
    (impl : implementation_target) (test : test_definition) (params : combo)
    (category_name temp_file : string) (w : world) :
  ∃ spawns readings,
    (run_single_test_body h config impl test params category_name temp_file w).2
    = advance w spawns readings.
Proof.
  unfold run_single_test_body.
  erewrite sandbox_bind_Ok by apply warmup_runs_run.
  destruct (measurement_runs_returns h impl temp_file
              (Z.to_nat (cfg_iterations config)) [] None
              (advance w (Z.to_nat (cfg_warmup_iterations config)) 0))
    as (timings & error' & spawns & Hruns & _).
  erewrite sandbox_bind_Ok by exact Hruns. rewrite advance_advance. simpl.
  eexists _, _.
  destruct timings as [|t timings].
  - by destruct error'.
  - unfold lift_exn, mbind, sandbox_bind.
    destruct (truediv_int _ _) as [mean_time|]; [|done].
    by destruct (if PrimFloat.ltb 0 mean_time then _ else _).
Qed.

(** The state a run leaves: one more temporary file was created, and when
    its path was free the files are those from before. *)
Lemma run_single_test_state (h : host) (config : statistical_config)
    (impl : implementation_target) (test : test_definition) (params : combo)
    (category_name : string) (w : world) :
  let after := (run_single_test h config impl test params category_name w).2 in
  temp_file_written h test params w →
  created after = S (created w)
  ∧ (files w !! temp_file_of h impl w = None → files after = files w).
Proof.
  intros after Hwritten. unfold after. rewrite run_single_test_unfold by done. simpl.
  set (w1 := {| files := _; created := _; spawned := spawned w; ticks := ticks w |}).
  destruct (run_single_test_body_world h config impl test params category_name
              (temp_file_of h impl w) w1) as (spawns & readings & ->).
  split; [done|]. intros Hfresh. by rewrite delete_insert_id.
Qed.


(** A loop whose body always returns and appends to the accumulator. *)
Lemma sandbox_for_each_appends {B C} (f : list C → B → sandbox (list C))
    (Inv : world → Prop) (R : B → list C → Prop) (xs : list B) :
  (∀ x acc w, Inv w →
     ∃ new after, f acc x w = (Ok (acc ++ new), after) ∧ Inv after ∧ R x new) →
  ∀ acc w, Inv w →
    ∃ news after,
      sandbox_for_each f xs acc w = (Ok (acc ++ concat news), after)
      ∧ Inv after ∧ Forall2 R xs news.
Proof.
  intros Hbody. induction xs as [|x xs IH]; intros acc w Hinv.
  - exists [], w. simpl. rewrite app_nil_r. by split_and!.
  - destruct (Hbody x acc w Hinv) as (new & w' & Hf & Hinv' & HR).
    destruct (IH (acc ++ new) w' Hinv') as (news & after & Hrest & Hafter & Hall).
    exists (new :: news), after. simpl.
    erewrite sandbox_bind_Ok by exact Hf.
    rewrite Hrest, app_assoc. split_and!; [done|done|by constructor].
Qed.

Lemma Forall2_concat_bind {B C D} (R : B → list C → Prop) (key : C → D)
    (plan : B → list D) (xs : list B) (news : list (list C)) :
  (∀ x new, R x new → key <$> new = plan x) →
  Forall2 R xs news → key <$> concat news = xs ≫= plan.
Proof.
  intros HR. induction 1 as [|x new xs news Hx _ IH]; [done|].
  csimpl. by rewrite fmap_app, IH, (HR x new Hx).
Qed.

Lemma Forall2_concat_Forall {B C} (R : B → list C → Prop) (P : C → Prop)
    (xs : list B) (news : list (list C)) :
  (∀ x new, R x new → Forall P new) →
  Forall2 R xs news → Forall P (concat news).
Proof.
  intros HR. induction 1 as [|x new xs news Hx _ IH]; [constructor|].
  simpl. apply Forall_app. split; [by apply (HR x)|done].
Qed.

Section sweep_facts.
Context (h : host) (config : statistical_config).
Context (impl : implementation_target) (w0 : world).
Hypothesis iterations_configured : (0 < cfg_iterations config)%Z.
Hypothesis files_written : ∀ n code, write_temp h n code = Written.
Hypothesis temp_paths_free :
  ∀ n, created w0 ≤ n →
    files w0 !! (temp_stem h n +:+ file_extension_of impl) = None.

Lemma run_and_append_spec (category : test_category) (test : test_definition)
    (param_combo : combo) (results : list execution_result) (w : world) :
  sweep_state w0 w →
  ∃ new after,
    run_and_append h config impl category test results param_combo w
    = (Ok (results ++ new), after)
    ∧ sweep_state w0 after
    ∧ results_of impl [(c_name category, t_name test, param_combo)] new.
Proof.
  intros [Hfiles Hcreated]. unfold run_and_append.
  destruct (run_single_test_result h config impl test param_combo (c_name category) w
              (files_written _ _) iterations_configured)
    as (result & after & Hrun & Himpl & Htest & Hcat & Hparams & _).
  pose proof (run_single_test_state h config impl test param_combo
                (c_name category) w (files_written _ _)) as [Hc Hf].
  rewrite Hrun in Hc, Hf. simpl in Hc, Hf.
  exists [result], after. erewrite sandbox_bind_Ok by exact Hrun.
  split_and!; [done| |].
  - split; [|lia]. rewrite Hf, Hfiles; [done|].
    unfold temp_file_of. rewrite Hfiles. by apply temp_paths_free.
  - split; [|by repeat constructor].
    unfold invocation_of. simpl. by rewrite Hcat, Htest, Hparams.
Qed.

Lemma run_test_spec (category : test_category) (test : test_definition)
    (results : list execution_result) (w : world) :
  sweep_state w0 w →
  ∃ new after,
    sandbox_for_each (run_and_append h config impl category test)
      (generate_parameter_combinations (t_parameters test)) results w
    = (Ok (results ++ new), after)
    ∧ sweep_state w0 after
    ∧ results_of impl (param_combo ← generate_parameter_combinations (t_parameters test);
                  [(c_name category, t_name test, param_combo)]) new.
Proof.
  intros Hstate.
  destruct (sandbox_for_each_appends (run_and_append h config impl category test)
              (sweep_state w0)
              (λ param_combo new,
                 results_of impl [(c_name category, t_name test, param_combo)] new)
              (generate_parameter_combinations (t_parameters test))
              (λ x acc w', run_and_append_spec category test x acc w')
              results w Hstate) as (news & after & Hrun & Hafter & Hall).
  exists (concat news), after. split_and!; [done..|]. split.
  - eapply Forall2_concat_bind; [|exact Hall]. by intros x new [? _].
  - eapply Forall2_concat_Forall; [|exact Hall]. by intros x new [_ ?].
Qed.

Lemma run_category_spec (category : test_category)
    (results : list execution_result) (w : world) :
  sweep_state w0 w →
  ∃ new after,
    sandbox_for_each
      (λ results test,
         sandbox_for_each (run_and_append h config impl category test)
           (generate_parameter_combinations (t_parameters test)) results)
      (c_tests category) results w
    = (Ok (results ++ new), after)
    ∧ sweep_state w0 after
    ∧ results_of impl (test ← c_tests category;
                  param_combo ← generate_parameter_combinations (t_parameters test);
                  [(c_name category, t_name test, param_combo)]) new.
Proof.
  intros Hstate.
  destruct (sandbox_for_each_appends
              (λ results test,
                 sandbox_for_each (run_and_append h config impl category test)
                   (generate_parameter_combinations (t_parameters test)) results)
              (sweep_state w0)
              (λ test new,
                 results_of impl
                   (param_combo ← generate_parameter_combinations (t_parameters test);
                    [(c_name category, t_name test, param_combo)]) new)
              (c_tests category)
              (λ x acc w', run_test_spec category x acc w')
              results w Hstate) as (news & after & Hrun & Hafter & Hall).
  exists (concat news), after. split_and!; [done..|]. split.
  - eapply Forall2_concat_bind; [|exact Hall]. by intros x new [? _].
  - eapply Forall2_concat_Forall; [|exact Hall]. by intros x new [_ ?].
Qed.

Lemma run_implementation_benchmarks_spec (test_categories : list test_category)
    (w : world) :
  sweep_state w0 w →
  ∃ results after,
    run_implementation_benchmarks h config test_categories impl w = (Ok results, after)
    ∧ sweep_state w0 after
    ∧ results_of impl (planned_invocations test_categories) results.
Proof.
  intros Hstate. unfold run_implementation_benchmarks.
  destruct (sandbox_for_each_appends
              (λ results category,
                 sandbox_for_each
                   (λ results test,
                      sandbox_for_each (run_and_append h config impl category test)
                        (generate_parameter_combinations (t_parameters test)) results)
                   (c_tests category) results)
              (sweep_state w0)
              (λ category new,
                 results_of impl
                   (test ← c_tests category;
                    param_combo ← generate_parameter_combinations (t_parameters test);
                    [(c_name category, t_name test, param_combo)]) new)
              test_categories
              (λ x acc w', run_category_spec x acc w')
              [] w Hstate) as (news & after & Hrun & Hafter & Hall).
  exists (concat news), after. split_and!; [done..|]. split.
  - eapply Forall2_concat_bind; [|exact Hall]. by intros x new [? _].
  - eapply Forall2_concat_Forall; [|exact Hall]. by intros x new [_ ?].
Qed.
End sweep_facts.

(** X9: on a host that writes every temporary file, with at least one
    iteration configured, the sweep of an implementation never raises and
    returns one result per planned
    invocation, in the order of the nested loops over categories, tests
    and parameter combinations; every result names the implementation,
    category, test and combination it ran.  When the paths of the
    temporary files are free, the files after the sweep are those from
    before. *)
Theorem sweep_returns_one_result_per_invocation (h : host)
    (config : statistical_config) (test_categories : list test_category)
    (impl : implementation_target) (w : world) :
  (0 < cfg_iterations config)%Z →
  (∀ n code, write_temp h n code = Written) →
  (∀ n, created w ≤ n →
     files w !! (temp_stem h n +:+ file_extension_of impl) = None) →
  ∃ results after,
    run_implementation_benchmarks h config test_categories impl w = (Ok results, after)
    ∧ invocation_of <$> results = planned_invocations test_categories
    ∧ Forall (λ result, implementation result = impl_id impl) results
    ∧ files after = files w.
Proof.
  intros Hpos Hwritten Hfree.
  destruct (run_implementation_benchmarks_spec h config impl w Hpos Hwritten Hfree
              test_categories w) as (results & after & Hrun & [Hfiles _] & Hplan & Himpl).
  { by split. }
  by exists results, after.
Qed.

Lemma sweep_returns_one_result_per_invocation_witness :
  ∃ results after,
    run_implementation_benchmarks host_timeout three_runs two_categories chez
      empty_world = (Ok results, after)
    ∧ length results = 5
    ∧ files after = ∅.
Proof.
  destruct (sweep_returns_one_result_per_invocation host_timeout three_runs
              two_categories chez empty_world)
    as (results & after & Hrun & Hplan & _ & Hfiles).
  - done.
  - done.
  - intros n _. apply lookup_empty.
  - exists results, after. split_and!; [done| |done].
    apply (f_equal length) in Hplan. by rewrite length_fmap in Hplan.
Defined.


Lemma odict_get_set_eq {V} (k : string) (v : V) (d : odict V) :
  odict.get k (odict.set k v d) = Some v.
Proof.
  induction d as [|[k' v'] d IH]; simpl.
  - by rewrite String.eqb_refl.
  - destruct (String.eqb_spec k k') as [->|Hne]; simpl.
    + by rewrite String.eqb_refl.
    + by rewrite (proj2 (String.eqb_neq k k') Hne).
Qed.

Lemma odict_get_set_ne {V} (k k' : string) (v : V) (d : odict V) :
  k ≠ k' → odict.get k (odict.set k' v d) = odict.get k d.
Proof.
  intros Hne. induction d as [|[k'' v''] d IH]; simpl.
  - by rewrite (proj2 (String.eqb_neq k k') Hne).
  - destruct (String.eqb_spec k' k'') as [->|Hne']; simpl.
    + by rewrite (proj2 (String.eqb_neq k k'') Hne).
    + by rewrite IH.
Qed.

Lemma run_native_benchmarks_spec (h : host) (config : statistical_config)
    (test_categories : list test_category) (implementations : list implementation_target)
    (w0 : world) :
  (0 < cfg_iterations config)%Z →
  (∀ n code, write_temp h n code = Written) →
  (∀ n suffix, created w0 ≤ n → files w0 !! (temp_stem h n +:+ suffix) = None) →
  ∀ (acc : odict (list execution_result)) (w : world),
    sweep_state w0 w →
    ∃ results after,
      sandbox_for_each
        (λ results impl,
           if String.eqb (impl_id impl) "lambdust" then mret results
           else impl_results ← run_implementation_benchmarks h config test_categories impl;
                mret (odict.set (impl_id impl) impl_results results))
        implementations acc w = (Ok results, after)
      ∧ sweep_state w0 after
      ∧ odict.get "lambdust" results = odict.get "lambdust" acc
      ∧ ∀ id, (id ≠ "lambdust" ∧ id ∈ impl_id <$> implementations
               ∨ ∃ impl_results,
                   odict.get id acc = Some impl_results
                   ∧ invocation_of <$> impl_results = planned_invocations test_categories) →
          ∃ impl_results,
            odict.get id results = Some impl_results
            ∧ invocation_of <$> impl_results = planned_invocations test_categories.
Proof.
  intros Hpos Hwritten Hfree.
  induction implementations as [|impl implementations IH]; intros acc w Hstate.
  - exists acc, w. split_and!; [done..|].
    intros id [[_ Hin]|Hacc]; [by apply elem_of_nil in Hin|done].
  - simpl. destruct (String.eqb_spec (impl_id impl) "lambdust") as [Hl|Hl].
    + destruct (IH acc w Hstate) as (results & after & Hrun & Hafter & Hlam & Hall).
      exists results, after. split_and!; [done..|].
      intros id [[Hid Hin]|Hacc]; apply Hall; [|by right].
      left. split; [done|]. apply elem_of_cons in Hin as [->|Hin]; [congruence|done].
    + destruct (run_implementation_benchmarks_spec h config impl w0 Hpos Hwritten
                  (λ n, Hfree n _) test_categories w Hstate)
        as (impl_results & w' & Hrun & Hstate' & Hplan & _).
      erewrite sandbox_bind_Ok; last first.
      { erewrite sandbox_bind_Ok by exact Hrun. reflexivity. }
      destruct (IH (odict.set (impl_id impl) impl_results acc) w' Hstate')
        as (results & after & Hrest & Hafter & Hlam & Hall).
      exists results, after. split_and!; [done|done| |].
      * rewrite Hlam. apply odict_get_set_ne. congruence.
      * intros id Hid. apply Hall.
        destruct (decide (id = impl_id impl)) as [->|Hne].
        { right. exists impl_results. by rewrite odict_get_set_eq. }
        destruct Hid as [[Hid Hin]|(rs & Hget & Hrs)].
        -- left. split; [done|].
           apply elem_of_cons in Hin as [->|Hin]; [done|done].
        -- right. exists rs. by rewrite odict_get_set_ne.
Qed.

(** X10: on a host that writes every temporary file, with at least one
    iteration configured and free temporary paths, the native sweep never
    raises; its result has no entry for [lambdust],
    which is skipped, and for every other configured implementation an
    entry with one result per planned invocation, in sweep order. *)
Theorem native_sweep_skips_lambdust (h : host) (config : statistical_config)
    (test_categories : list test_category) (implementations : list implementation_target)
    (w : world) :
  (0 < cfg_iterations config)%Z →
  (∀ n code, write_temp h n code = Written) →
  (∀ n suffix, created w ≤ n → files w !! (temp_stem h n +:+ suffix) = None) →
  ∃ results after,
    run_native_benchmarks h config test_categories implementations w
    = (Ok results, after)
    ∧ odict.get "lambdust" results = None
    ∧ (∀ impl, impl ∈ implementations → impl_id impl ≠ "lambdust" →
       ∃ impl_results,
         odict.get (impl_id impl) results = Some impl_results
         ∧ invocation_of <$> impl_results = planned_invocations test_categories)
    ∧ files after = files w.
Proof.
  intros Hpos Hwritten Hfree.
  destruct (run_native_benchmarks_spec h config test_categories implementations w
              Hpos Hwritten Hfree [] w) as (results & after & Hrun & [Hfiles _] & Hlam & Hall).
  { by split. }
  exists results, after. split_and!; [done|done| |done].
  intros impl Hin Hid. apply Hall. left. split; [done|].
  by apply list_elem_of_fmap_2.
Qed.

Lemma native_sweep_skips_lambdust_witness :
  ∃ results after,
    run_native_benchmarks host_timeout three_runs two_categories
      [chez; lambdust; guile] empty_world = (Ok results, after)
    ∧ odict.get "lambdust" results = None
    ∧ files after = ∅.
Proof.
  destruct (native_sweep_skips_lambdust host_timeout three_runs two_categories
              [chez; lambdust; guile] empty_world)
    as (results & after & Hrun & Hlam & _ & Hfiles).
  - reflexivity.
  - reflexivity.
  - intros n suffix _. apply lookup_empty.
  - exists results, after. split_and!; [exact Hrun|exact Hlam|exact Hfiles].
Defined.

(** ** Grouping of the results *)


Lemma odict_get_set {V} (k : string) (v : V) (d : odict V) :
  odict.get k (odict.set k v d) = Some v.
Proof.
  induction d as [|[k' v'] d IH]; simpl.
  - by rewrite String.eqb_refl.
  - destruct (String.eqb_spec k k') as [->|Hne]; simpl.
    + by rewrite String.eqb_refl.
    + by rewrite (proj2 (String.eqb_neq k k') Hne).
Qed.

Lemma odict_set_mem {V} (k : string) (v : V) (d : odict V) :
  odict.mem k (odict.set k v d) = true.
Proof. unfold odict.mem. by rewrite odict_get_set. Qed.




(** ** Descriptive statistics of any sample set *)

Lemma py_index_in_range (xs : list float) (i : Z) :
  (0 ≤ i < Z.of_nat (length xs))%Z → ∃ x, py_index xs i = Ok x.
Proof.
  intros Hi. unfold py_index.
  rewrite (proj2 (Z.ltb_ge i 0)) by lia. rewrite (proj2 (Z.ltb_ge i 0)) by lia.
  destruct (lookup_lt_is_Some_2 xs (Z.to_nat i)) as [x ->]; [lia|]. by exists x.
Qed.

Lemma py_index_last (xs : list float) :
  xs ≠ [] → ∃ x, py_index xs (-1) = Ok x.
Proof.
  intros Hne. unfold py_index. change (Z.ltb (-1) 0) with true. cbv beta iota zeta.
  assert (0 < length xs) by (destruct xs; [done|simpl; lia]).
  rewrite (proj2 (Z.ltb_ge _ 0)) by lia.
  destruct (lookup_lt_is_Some_2 xs (Z.to_nat (-1 + Z.of_nat (length xs))))
    as [x ->]; [lia|]. by exists x.
Qed.

(** The part of the statistics after the standard deviation never
    raises: the indices are those of elements of the list. *)
Lemma order_statistics_return (values : list float) :
  values ≠ [] →
  let n := Z.of_nat (length values) in
  ∃ median min max q25 q75,
    (if Z.eqb (n mod 2) 1 then py_index values (n / 2)
     else lo ← py_index values (n / 2 - 1);
          hi ← py_index values (n / 2);
          truediv (PrimFloat.add lo hi) 2) = Ok median
    ∧ py_index values 0 = Ok min
    ∧ py_index values (-1) = Ok max
    ∧ py_index values (n / 4) = Ok q25
    ∧ py_index values (3 * n / 4) = Ok q75.
Proof.
  intros Hne n.
  assert (Hn : (0 < n)%Z) by (subst n; destruct values; [done|simpl; lia]).
  destruct (py_index_in_range values 0) as [min Hmin]; [lia|].
  destruct (py_index_last values Hne) as [max Hmax].
  destruct (py_index_in_range values (n / 4)) as [q25 Hq25].
  { split; [apply Z.div_pos; lia|apply Z.div_lt_upper_bound; lia]. }
  destruct (py_index_in_range values (3 * n / 4)) as [q75 Hq75].
  { split; [apply Z.div_pos; lia|apply Z.div_lt_upper_bound; lia]. }
  destruct (py_index_in_range values (n / 2)) as [hi Hhi].
  { split; [apply Z.div_pos; lia|apply Z.div_lt_upper_bound; lia]. }
  destruct (Z.eqb_spec (n mod 2) 1) as [Hodd|Heven].
  - by exists hi, min, max, q25, q75.
  - destruct (py_index_in_range values (n / 2 - 1)) as [lo Hlo].
    { pose proof (Z.mod_pos_bound n 2 ltac:(lia)).
      pose proof (Z.div_mod n 2 ltac:(lia)).
      split; [lia|]. assert (n / 2 < n)%Z by (apply Z.div_lt_upper_bound; lia). lia. }
    exists (PrimFloat.div (PrimFloat.add lo hi) 2), min, max, q25, q75.
    rewrite Hlo, Hhi. by split_and!.
Qed.

(** X12: on a non-empty sample set, [calculate_descriptive_stats] returns
    the statistics, with the number of samples as [count], unless [**]
    overflows: it raises no [IndexError] and no [ZeroDivisionError]. *)
Theorem descriptive_stats_return_or_overflow (py : python) (values : list float) :
  sorted_rearranges py → values ≠ [] →
  (∃ stats,
     calculate_descriptive_stats py values = Ok stats
     ∧ odict.get "count" stats = Some (NInt (Z.of_nat (length values))))
  ∨ calculate_descriptive_stats py values = Raise OverflowError.
Proof.
  intros Hsorted Hne. unfold calculate_descriptive_stats.
  pose proof (Permutation_length (Hsorted values)) as Hlen.
  destruct values as [|v values]; [done|].
  set (sorted_values := sorted py (v :: values)) in *.
  assert (Hne' : sorted_values ≠ []).
  { intros Heq. rewrite Heq in Hlen. done. }
  rewrite truediv_int_nonzero by (rewrite Hlen; simpl; lia). csimpl.
  destruct (order_statistics_return sorted_values Hne')
    as (median & min & max & q25 & q75 & Hmedian & Hmin & Hmax & Hq25 & Hq75).
  match goal with |- context [float_pow_half py] =>
    set (variance := (if Z.ltb 1 _ then _ else _))
  end.
  assert (Hvariance : (∃ v, variance = Ok v) ∨ variance = Raise OverflowError).
  { subst variance. destruct (Z.ltb_spec 1 (Z.of_nat (length sorted_values))); [|by left; eexists].
    destruct (sum_sq_dev py _ sorted_values) as [total|e] eqn:Htotal; csimpl.
    - rewrite truediv_int_nonzero by lia. left. by eexists.
    - right. by rewrite (sum_sq_dev_raises _ _ _ _ Htotal). }
  destruct Hvariance as [[var ->]| ->]; [|by right]. csimpl.
  destruct (float_pow_half py var) as [std_dev|e] eqn:Hroot; csimpl;
    [|right; by rewrite (float_pow_half_raises _ _ _ Hroot)].
  rewrite Hmedian. csimpl. rewrite Hmin. csimpl. rewrite Hmax. csimpl.
  rewrite Hq25. csimpl. rewrite Hq75. csimpl.
  left. eexists. split; [reflexivity|]. simpl. by rewrite Hlen.
Qed.

Lemma descriptive_stats_return_or_overflow_witness :
  ∃ stats,
    calculate_descriptive_stats reference_python samples_fast = Ok stats
    ∧ odict.get "count" stats = Some (NInt 3).
Proof.
  destruct (descriptive_stats_return_or_overflow reference_python samples_fast)
    as [(stats & Hstats & Hcount)|Hraise];
    [apply insertion_sort_rearranges|done| |].
  - by exists stats.
  - vm_compute in Hraise. discriminate.
Defined.
